(** * AI chat room: token issuer and session controller

  A shallow embedding of the two pieces of logic of the repository:

  - [TokenIssuer.handler], the HTTP handler of [pages/api/get-token.js],
    which validates a request and the server configuration and signs a
    LiveKit access token;
  - the [ChatRoom] page component of [components/ChatRoom.js], whose React
    state and room-event callbacks form the session controller.

  JavaScript strings are modelled by [string], one [ascii] per code unit
  (so the model covers strings whose code units are below 256); numbers
  that the code only uses as integers are [Z]; message identifiers, which
  may carry the fraction added by [Math.random()], are [Q]. *)

From Stdlib Require Import List String Ascii ZArith QArith Bool Lia.
From Stdlib Require Import Strings.Byte DecimalString.
Import ListNotations.

Set Warnings "-register-all".

Open Scope string_scope.
Open Scope list_scope.
Open Scope Z_scope.

(** ** JavaScript values *)

Module JS.

(** The values that travel through JSON bodies and object literals. *)
Inductive value : Type :=
  | VUndefined
  | VNull
  | VBool (b : bool)
  | VNum (n : Z)
  | VStr (s : string)
  | VObj (fields : list (string * value)).

(** An object literal keeps its properties in insertion order. *)
Definition object := list (string * value).

(** [ToBoolean]: what [!x] and [if (x)] look at. *)
Definition truthy (v : value) : bool :=
  match v with
  | VUndefined | VNull => false
  | VBool b => b
  | VNum n => negb (n =? 0)
  | VStr s => negb (s =? EmptyString)%string
  | VObj _ => true
  end.

(** Property read [o.k]; an absent property reads as [undefined]. *)
Fixpoint obj_get (k : string) (o : object) : value :=
  match o with
  | [] => VUndefined
  | (k', v) :: rest => if (k =? k')%string then v else obj_get k rest
  end.

Definition prop (k : string) (v : value) : value :=
  match v with
  | VObj o => obj_get k o
  | _ => VUndefined
  end.

Definition keys (o : object) : list string := map fst o.

(** The code units below 256 that ECMAScript counts as [WhiteSpace] or
    [LineTerminator]: TAB, LF, VT, FF, CR, SP and NBSP. *)
Definition is_white_space (c : ascii) : bool :=
  let n := nat_of_ascii c in
  ((9 <=? n) && (n <=? 13) || (n =? 32) || (n =? 160))%nat.

(** [String.prototype.trimStart], [trimEnd] and [trim]. *)
Fixpoint trimStart (s : string) : string :=
  match s with
  | EmptyString => EmptyString
  | String c rest => if is_white_space c then trimStart rest else s
  end.

Fixpoint trimEnd (s : string) : string :=
  match s with
  | EmptyString => EmptyString
  | String c rest =>
      match trimEnd rest with
      | EmptyString => if is_white_space c then EmptyString
                       else String c EmptyString
      | kept => String c kept
      end
  end.

Definition trim (s : string) : string := trimEnd (trimStart s).

(** A string made of white space only (the empty string included). *)
Fixpoint blank (s : string) : bool :=
  match s with
  | EmptyString => true
  | String c rest => is_white_space c && blank rest
  end.

(** Truthiness of a string, as in [!username.trim()]. *)
Definition nonempty (s : string) : bool := negb (s =? EmptyString)%string.

(** Template-literal rendering of a non-negative integer. *)
Definition show_nat (n : nat) : string :=
  NilZero.string_of_uint (Nat.to_uint n).

End JS.

(** ** The token issuer: [pages/api/get-token.js] *)

Module TokenIssuer.
Import JS.

(** [process.env]: each variable is a string or unset. *)
Record env : Type := {
  LIVEKIT_API_KEY : option string;
  LIVEKIT_API_SECRET : option string;
  LIVEKIT_URL : option string
}.

Definition env_read (v : option string) : value :=
  match v with
  | Some s => VStr s
  | None => VUndefined
  end.

(** A request whose body is an object: a method and the properties that
    [const { username } = req.body] reads from.  The bodies for which that
    line throws are covered by [handler_any_body] below. *)
Record request : Type := {
  method : string;
  body : object
}.

Record response : Type := {
  status : Z;
  json : value
}.

(** What a run of the handler did: the calls it made to [jwt.sign]
    (payload and secret) and the response it sent. *)
Record outcome : Type := {
  signing : list (value * value);
  sent : response
}.

Definition reply (code : Z) (o : object) : outcome :=
  {| signing := []; sent := {| status := code; json := VObj o |} |}.

Definition roomName : string := "ai-chat-room".

(** The JWT payload built for [username] at second [now]. *)
Definition payload (apiKey username : value) (now : Z) : value :=
  VObj [ ("iss", apiKey);
         ("sub", username);
         ("nbf", VNum now);
         ("exp", VNum (now + 6 * 60 * 60));
         ("video", VObj [ ("room", VStr roomName);
                          ("roomJoin", VBool true);
                          ("canPublish", VBool true);
                          ("canSubscribe", VBool true);
                          ("canPublishData", VBool true) ]) ].

Definition missing_or_present (v : value) : value :=
  if negb (truthy v) then VStr "Missing" else VStr "Present".

Section Handler.

(** [jwt.sign(payload, secret, { algorithm: 'HS256' })] of the
    [jsonwebtoken] package: the token, or the message of the error it
    throws. *)
Variable jwt_sign : value -> value -> string + string.

(** [handler(req, res)] on a request whose body is an object, with
    [date_now] the reading of [Date.now()] in milliseconds and [e] the
    process environment. *)
Definition handler (date_now : Z) (e : env) (req : request) : outcome :=
  if negb (method req =? "POST")%string then
    reply 405 [ ("error", VStr "Method not allowed") ]
  else
    let username := obj_get "username" (body req) in
    if negb (truthy username) then
      reply 400 [ ("error", VStr "Username is required") ]
    else
      let apiKey := env_read (LIVEKIT_API_KEY e) in
      let apiSecret := env_read (LIVEKIT_API_SECRET e) in
      let wsUrl := env_read (LIVEKIT_URL e) in
      if negb (truthy apiKey) || negb (truthy apiSecret)
         || negb (truthy wsUrl) then
        reply 500
          [ ("error", VStr "Missing LiveKit configuration");
            ("details",
             VObj [ ("apiKey", missing_or_present apiKey);
                    ("apiSecret", missing_or_present apiSecret);
                    ("wsUrl", missing_or_present wsUrl) ]) ]
      else
        let now := date_now / 1000 in
        let p := payload apiKey username now in
        match jwt_sign p apiSecret with
        | inl token =>
            {| signing := [ (p, apiSecret) ];
               sent := {| status := 200;
                          json := VObj [ ("token", VStr token);
                                         ("wsUrl", wsUrl);
                                         ("roomName", VStr roomName) ] |} |}
        | inr message =>
            {| signing := [ (p, apiSecret) ];
               sent := {| status := 500;
                          json := VObj [ ("error",
                                          VStr "Failed to generate token");
                                         ("details", VStr message) ] |} |}
        end.

(** The request as it reaches the handler: [req.body] is whatever the body
    parser produced, which for the JSON text [null] is [null] and may be
    [undefined]. *)
Record raw_request : Type := {
  raw_method : string;
  raw_body : value
}.

(** A call of the handler returns, or throws out of the handler. *)
Inductive result : Type :=
| Returned (o : outcome)
| Threw (error_name : string).

(** [const { username } = req.body]: destructuring [null] or [undefined]
    throws a [TypeError]; an object gives its properties and a primitive
    has no [username]. *)
Definition destructure (v : value) : option object :=
  match v with
  | VUndefined | VNull => None
  | VObj o => Some o
  | VBool _ | VNum _ | VStr _ => Some []
  end.

(** [handler(req, res)] for a body of any shape.  The destructuring comes
    after the method check and outside the [try], so what it throws leaves
    the handler; for every other body the handler goes on as [handler]
    does with the properties read. *)
Definition handler_any_body (date_now : Z) (e : env) (req : raw_request)
    : result :=
  if negb (raw_method req =? "POST")%string then
    Returned (reply 405 [ ("error", VStr "Method not allowed") ])
  else
    match destructure (raw_body req) with
    | None => Threw "TypeError"
    | Some o =>
        Returned (handler date_now e
                    {| method := raw_method req; body := o |})
    end.

End Handler.

(** A configuration value is absent when the variable is unset or set to
    the empty string. *)
Definition absent (v : option string) : bool :=
  match v with
  | None => true
  | Some s => (s =? EmptyString)%string
  end.

Definition valid_config (e : env) : Prop :=
  absent (LIVEKIT_API_KEY e) = false /\
  absent (LIVEKIT_API_SECRET e) = false /\
  absent (LIVEKIT_URL e) = false.

(** The token a response hands out, if it is the success response. *)
Definition issued_token (o : outcome) : option string :=
  if status (sent o) =? 200 then
    match prop "token" (json (sent o)) with
    | VStr t => Some t
    | _ => None
    end
  else None.

End TokenIssuer.

(** ** The session controller: [components/ChatRoom.js] *)

Module ChatRoom.
Import JS.

(** A chat message as the handlers build it.  The three role flags are
    optional properties of the object literal: [None] is an absent one. *)
Record Message : Type := {
  id : Q;
  sender : string;
  message : string;
  timestamp : Z;
  isSystem : option bool;
  isBot : option bool;
  isUser : option bool
}.

Definition flag (f : option bool) : bool :=
  match f with
  | Some b => b
  | None => false
  end.

(** The four branches of [getMessageStyle] in [Message.jsx]. *)
Inductive role : Type := User | Agent | System | Other.

Definition getMessageStyle (m : Message) : role :=
  if flag (isUser m) then User
  else if flag (isBot m) then Agent
  else if flag (isSystem m) then System
  else Other.

(** The React state of the [ChatRoom] component.  [room] holds the handle
    of the room object, or [None] for [null]. *)
Record state : Type := {
  room : option nat;
  messages : list Message;
  inputMessage : string;
  username : string;
  isConnected : bool;
  isConnecting : bool;
  error : string;
  participants : list string
}.

Definition initial : state :=
  {| room := None; messages := []; inputMessage := EmptyString;
     username := EmptyString; isConnected := false; isConnecting := false;
     error := EmptyString; participants := [] |}.

(** The three screens the component renders, read off its two flags. *)
Inductive connectionState : Type := Idle | Connecting | Connected.

Definition render (s : state) : connectionState :=
  if negb (isConnected s) && negb (isConnecting s) then Idle
  else if isConnecting s then Connecting
  else Connected.

(** What the room object shows of its members when an event fires. *)
Record participant : Type := { identity : string }.

Record room_view : Type := {
  room_participants : option (list participant);
  localParticipant : option participant
}.

(** Calls that leave the component. *)
Inductive effect : Type :=
| Fetch (url method : string) (body : object)
| RoomConnect (wsUrl token : value) (autoSubscribe : bool)
| RoomDisconnect
| PublishData (data : list byte) (reliable : bool).

(** Handlers run in a state monad that also collects the effects.  No
    handler reads a state variable after it has set it, so threading the
    state agrees with React's snapshot of the last render. *)
Definition M (A : Type) : Type := state -> A * state * list effect.

Definition ret {A : Type} (a : A) : M A := fun s => (a, s, []).

Definition bind {A B : Type} (m : M A) (k : A -> M B) : M B :=
  fun s =>
    let '(a, s1, e1) := m s in
    let '(b, s2, e2) := k a s1 in
    (b, s2, e1 ++ e2).

Notation "x <- m ;; k" := (bind m (fun x => k))
  (at level 61, m at next level, right associativity).
Notation "m ;; k" := (bind m (fun _ => k))
  (at level 61, right associativity).

Definition read {A : Type} (field : state -> A) : M A :=
  fun s => (field s, s, []).

Definition emit (e : effect) : M unit := fun s => (tt, s, [e]).

Definition exec {A : Type} (m : M A) (s : state) : state := snd (fst (m s)).

Definition effects {A : Type} (m : M A) (s : state) : list effect :=
  snd (m s).

(** The state setters returned by [useState]. *)
Definition setRoom (r : option nat) : M unit :=
  fun s => (tt, {| room := r; messages := messages s;
                   inputMessage := inputMessage s; username := username s;
                   isConnected := isConnected s;
                   isConnecting := isConnecting s; error := error s;
                   participants := participants s |}, []).

Definition setMessages (f : list Message -> list Message) : M unit :=
  fun s => (tt, {| room := room s; messages := f (messages s);
                   inputMessage := inputMessage s; username := username s;
                   isConnected := isConnected s;
                   isConnecting := isConnecting s; error := error s;
                   participants := participants s |}, []).

Definition setInputMessage (v : string) : M unit :=
  fun s => (tt, {| room := room s; messages := messages s;
                   inputMessage := v; username := username s;
                   isConnected := isConnected s;
                   isConnecting := isConnecting s; error := error s;
                   participants := participants s |}, []).

Definition setUsername (v : string) : M unit :=
  fun s => (tt, {| room := room s; messages := messages s;
                   inputMessage := inputMessage s; username := v;
                   isConnected := isConnected s;
                   isConnecting := isConnecting s; error := error s;
                   participants := participants s |}, []).

Definition setIsConnected (b : bool) : M unit :=
  fun s => (tt, {| room := room s; messages := messages s;
                   inputMessage := inputMessage s; username := username s;
                   isConnected := b;
                   isConnecting := isConnecting s; error := error s;
                   participants := participants s |}, []).

Definition setIsConnecting (b : bool) : M unit :=
  fun s => (tt, {| room := room s; messages := messages s;
                   inputMessage := inputMessage s; username := username s;
                   isConnected := isConnected s;
                   isConnecting := b; error := error s;
                   participants := participants s |}, []).

Definition setError (v : string) : M unit :=
  fun s => (tt, {| room := room s; messages := messages s;
                   inputMessage := inputMessage s; username := username s;
                   isConnected := isConnected s;
                   isConnecting := isConnecting s; error := v;
                   participants := participants s |}, []).

Definition setParticipants (f : list string -> list string) : M unit :=
  fun s => (tt, {| room := room s; messages := messages s;
                   inputMessage := inputMessage s; username := username s;
                   isConnected := isConnected s;
                   isConnecting := isConnecting s; error := error s;
                   participants := f (participants s) |}, []).

(** [Array.prototype.includes] on a list of strings. *)
Definition includes (l : list string) (x : string) : bool :=
  existsb (fun y => (y =? x)%string) l.

(** A system notice, as the event handlers build it. *)
Definition system_message (date_now new_date : Z) (text : string) : Message :=
  {| id := inject_Z date_now; sender := "System"; message := text;
     timestamp := new_date; isSystem := Some true; isBot := None;
     isUser := None |}.

(** [connectToRoom], up to its first [await]. *)
Definition connectToRoom : M unit :=
  u <- read username ;;
  if negb (nonempty (trim u)) then
    setError "Please enter a username"
  else
    setIsConnecting true ;;
    setError EmptyString ;;
    emit (Fetch "/api/get-token" "POST" [ ("username", VStr (trim u)) ]).

(** The [catch] block of [connectToRoom]. *)
Definition connectToRoom_catch (error_message : string) : M unit :=
  setError ("Connection failed: " ++ error_message)%string ;;
  setIsConnecting false.

(** How the token request settles: [fetch] rejects, or it resolves to a
    response whose [json()] is an object or rejects with a message. *)
Inductive fetch_result : Type :=
| FetchRejected (error_message : string)
| FetchResponse (ok : bool) (status : nat) (text : string)
    (json : string + object).

(** [connectToRoom] from the settled [fetch] to [await room.connect]. *)
Definition connectToRoom_fetched (r : fetch_result) : M unit :=
  match r with
  | FetchRejected error_message => connectToRoom_catch error_message
  | FetchResponse false status errorData _ =>
      connectToRoom_catch
        ("Token request failed: " ++ show_nat status ++ " " ++ errorData)%string
  | FetchResponse true _ _ (inl error_message) =>
      connectToRoom_catch error_message
  | FetchResponse true _ _ (inr data) =>
      emit (RoomConnect (obj_get "wsUrl" data) (obj_get "token" data) true)
  end.

(** [connectToRoom] after [room.connect] has resolved, and after it has
    thrown. *)
Definition connectToRoom_connected (new_room : nat) : M unit :=
  setRoom (Some new_room).

Definition connectToRoom_rejected (error_message : string) : M unit :=
  connectToRoom_catch error_message.

(** [room.participants ? Array.from(room.participants.values()).map(p =>
    p.identity) : []]. *)
Definition remoteParticipants (v : room_view) : list string :=
  match room_participants v with
  | Some ps => map identity ps
  | None => []
  end.

(** [updateParticipantsList(room)]. *)
Definition updateParticipantsList (r : option room_view) : M unit :=
  match r with
  | Some v =>
      let remoteParticipants := remoteParticipants v in
      let allParticipants :=
        match localParticipant v with
        | Some p => remoteParticipants ++ [identity p]
        | None => remoteParticipants
        end in
      setParticipants (fun _ => allParticipants)
  | None => ret tt
  end.

(** The [RoomEvent.Connected] callback. *)
Definition on_Connected (v : room_view) (date_now new_date : Z) : M unit :=
  setIsConnected true ;;
  setIsConnecting false ;;
  setError EmptyString ;;
  updateParticipantsList (Some v) ;;
  setMessages (fun prev =>
    prev ++ [system_message date_now new_date "Connected to chat room!"]).

(** The [RoomEvent.Disconnected] callback. *)
Definition on_Disconnected (date_now new_date : Z) : M unit :=
  setIsConnected false ;;
  setParticipants (fun _ => []) ;;
  setMessages (fun prev =>
    prev ++ [system_message date_now new_date "Disconnected from chat room"]).

(** The [RoomEvent.ParticipantConnected] callback. *)
Definition on_ParticipantConnected (p : participant)
    (date_now new_date : Z) : M unit :=
  setParticipants (fun prev =>
    if negb (includes prev (identity p)) then prev ++ [identity p]
    else prev) ;;
  if (identity p =? "ai-agent")%string then
    setMessages (fun prev =>
      prev ++ [system_message date_now new_date
                 "AI Assistant joined the chat"])
  else ret tt.

(** The [RoomEvent.ParticipantDisconnected] callback. *)
Definition on_ParticipantDisconnected (p : participant) : M unit :=
  setParticipants (fun prev =>
    filter (fun q => negb (q =? identity p)%string) prev).

(** [participant?.identity], with [None] for [undefined]. *)
Definition identity_of (p : option participant) : option string :=
  option_map identity p.

(** [participant?.identity || 'Unknown']. *)
Definition sender_of (p : option participant) : string :=
  match identity_of p with
  | Some i => if nonempty i then i else "Unknown"
  | None => "Unknown"
  end.

(** [participant?.identity === 'ai-agent']. *)
Definition is_agent (p : option participant) : bool :=
  match identity_of p with
  | Some i => (i =? "ai-agent")%string
  | None => false
  end.

(** [disconnect]. *)
Definition disconnect : M unit :=
  r <- read room ;;
  match r with
  | Some _ => emit RoomDisconnect ;; setRoom None
  | None => ret tt
  end ;;
  setIsConnected false ;;
  setParticipants (fun _ => []) ;;
  setMessages (fun _ => []) ;;
  setError EmptyString.

(** [prev.filter(msg => msg.id !== Date.now())]: the callback reads the
    clock anew for every message.  [date_now i] is the reading taken for
    the message at index [i] of the list being filtered. *)
Fixpoint filter_by_clock (date_now : nat -> Z) (i : nat)
    (prev : list Message) : list Message :=
  match prev with
  | [] => []
  | msg :: rest =>
      if negb (Qeq_bool (id msg) (inject_Z (date_now i)))
      then msg :: filter_by_clock date_now (S i) rest
      else filter_by_clock date_now (S i) rest
  end.

(** The [catch] block of [sendMessage]; [date_now] gives the readings of
    the clock while the filter runs. *)
Definition sendMessage_catch (error_message : string) (date_now : nat -> Z)
    : M unit :=
  setError ("Failed to send message: " ++ error_message)%string ;;
  setMessages (fun prev => filter_by_clock date_now 0 prev).

Section Codec.

(** [new TextEncoder().encode] and [new TextDecoder().decode], the latter
    with [None] when it throws. *)
Variable encode : string -> list byte.
Variable decode : list byte -> option string.

(** The [RoomEvent.DataReceived] callback; [random] is [Math.random()]. *)
Definition on_DataReceived (payload : list byte) (p : option participant)
    (date_now : Z) (random : Q) (new_date : Z) : M unit :=
  match decode payload with
  | Some text =>
      setMessages (fun prev =>
        prev ++ [ {| id := inject_Z date_now + random;
                     sender := sender_of p;
                     message := text;
                     timestamp := new_date;
                     isSystem := None;
                     isBot := Some (is_agent p);
                     isUser := None |} ])
  | None => ret tt
  end.

(** The user's own message, appended before the publish is awaited. *)
Definition optimistic (u text : string) (date_now new_date : Z) : Message :=
  {| id := inject_Z date_now; sender := u; message := text;
     timestamp := new_date; isSystem := None; isBot := None;
     isUser := Some true |}.

(** [sendMessage], up to [await publishData]. *)
Definition sendMessage (date_now new_date : Z) : M unit :=
  input <- read inputMessage ;;
  r <- read room ;;
  connected <- read isConnected ;;
  u <- read username ;;
  if negb (nonempty (trim input))
     || negb (match r with Some _ => true | None => false end)
     || negb connected then ret tt
  else
    let text := trim input in
    setInputMessage EmptyString ;;
    setMessages (fun prev => prev ++ [optimistic u text date_now new_date]) ;;
    emit (PublishData (encode text) true).

(** Everything that can happen to the component. *)
Inductive input : Type :=
| TypeUsername (v : string)
| TypeMessage (v : string)
| ClickJoin
| FetchSettled (r : fetch_result)
| ConnectResolved (new_room : nat)
| ConnectRejected (error_message : string)
| EvConnected (v : room_view) (date_now new_date : Z)
| EvDisconnected (date_now new_date : Z)
| EvDataReceived (payload : list byte) (p : option participant)
    (date_now : Z) (random : Q) (new_date : Z)
| EvParticipantConnected (p : participant) (date_now new_date : Z)
| EvParticipantDisconnected (p : participant)
| ClickSend (date_now new_date : Z)
| PublishResolved
| PublishRejected (error_message : string) (date_now : nat -> Z)
| ClickDisconnect.

Definition dispatch (i : input) : M unit :=
  match i with
  | TypeUsername v => setUsername v
  | TypeMessage v => setInputMessage v
  | ClickJoin => connectToRoom
  | FetchSettled r => connectToRoom_fetched r
  | ConnectResolved new_room => connectToRoom_connected new_room
  | ConnectRejected error_message => connectToRoom_rejected error_message
  | EvConnected v date_now new_date => on_Connected v date_now new_date
  | EvDisconnected date_now new_date => on_Disconnected date_now new_date
  | EvDataReceived payload p date_now random new_date =>
      on_DataReceived payload p date_now random new_date
  | EvParticipantConnected p date_now new_date =>
      on_ParticipantConnected p date_now new_date
  | EvParticipantDisconnected p => on_ParticipantDisconnected p
  | ClickSend date_now new_date => sendMessage date_now new_date
  | PublishResolved => ret tt
  | PublishRejected error_message date_now =>
      sendMessage_catch error_message date_now
  | ClickDisconnect => disconnect
  end.

(** Identity of room objects, as React compares the dependency [room]. *)
Definition same_room (r r' : nat) : bool := Nat.eqb r r'.

(** The cleanup of [useEffect(..., [room])]: when [room] changes, the room
    of the previous render is disconnected. *)
Definition cleanup (before after : option nat) : list effect :=
  match before, after with
  | Some r, Some r' => if same_room r r' then [] else [RoomDisconnect]
  | Some _, None => [RoomDisconnect]
  | None, _ => []
  end.

Definition step (s : state) (i : input) : state * list effect :=
  let '(_, s', es) := dispatch i s in
  (s', es ++ cleanup (room s) (room s')).

Fixpoint run (s : state) (inputs : list input) : state * list effect :=
  match inputs with
  | [] => (s, [])
  | i :: rest =>
      let '(s1, e1) := step s i in
      let '(s2, e2) := run s1 rest in
      (s2, e1 ++ e2)
  end.

End Codec.

(** The role and body of each message, in list order. *)
Definition transcript (l : list Message) : list (role * string) :=
  map (fun m => (getMessageStyle m, message m)) l.

End ChatRoom.

(** ** Concrete inputs on which the statements below are exercised *)

Module Samples.
Import JS.

Definition sample_sign (claims secret : value) : string + string :=
  inl "header.claims.signature".

Definition sample_env : TokenIssuer.env :=
  {| TokenIssuer.LIVEKIT_API_KEY := Some "APIkey";
     TokenIssuer.LIVEKIT_API_SECRET := Some "secret";
     TokenIssuer.LIVEKIT_URL := Some "wss://chat.example" |}.



Definition post (o : object) : TokenIssuer.request :=
  {| TokenIssuer.method := "POST"; TokenIssuer.body := o |}.

Definition sample_encode (s : string) : list byte := list_byte_of_string s.

Definition sample_decode (b : list byte) : option string :=
  Some (string_of_list_byte b).

Definition greeting : ChatRoom.Message :=
  ChatRoom.system_message 1700000000000 1700000000000
    "Connected to chat room!".

(** A session in the chat screen: bob and the agent are in the room. *)
Definition chatting : ChatRoom.state :=
  {| ChatRoom.room := Some 1%nat;
     ChatRoom.messages := [greeting];
     ChatRoom.inputMessage := "hello";
     ChatRoom.username := "bob";
     ChatRoom.isConnected := true;
     ChatRoom.isConnecting := false;
     ChatRoom.error := EmptyString;
     ChatRoom.participants := ["ai-agent"; "bob"] |}.

(** The login screen with only spaces typed into the username field. *)
Definition spaces_typed : ChatRoom.state :=
  {| ChatRoom.room := None;
     ChatRoom.messages := [];
     ChatRoom.inputMessage := EmptyString;
     ChatRoom.username := "   ";
     ChatRoom.isConnected := false;
     ChatRoom.isConnecting := false;
     ChatRoom.error := EmptyString;
     ChatRoom.participants := [] |}.

(** A room in which the local identity also shows among the remote ones. *)
Definition echoing_room : ChatRoom.room_view :=
  {| ChatRoom.room_participants :=
       Some [ {| ChatRoom.identity := "ai-agent" |};
              {| ChatRoom.identity := "bob" |} ];
     ChatRoom.localParticipant := Some {| ChatRoom.identity := "bob" |} |}.

End Samples.

(** ** What the presentation components compute from the state *)

Module Components.
Import JS ChatRoom.

(** [LoginForm.jsx]: the [disabled] of the Join button. *)
Definition LoginForm_disabled (s : state) : bool :=
  isConnecting s || negb (nonempty (trim (username s))).

(** The [disabled] of the Send button:
    [!isConnected || !inputMessage.trim()]. *)
Definition Send_disabled (s : state) : bool :=
  negb (isConnected s) || negb (nonempty (trim (inputMessage s))).

(** The avatar of [Message.jsx], chosen by [isBot] first, then [isUser]. *)
Inductive avatar : Type := BotIcon | UserIcon | PlainIcon.

Definition Message_avatar (m : Message) : avatar :=
  if flag (isBot m) then BotIcon
  else if flag (isUser m) then UserIcon
  else PlainIcon.

(** At most one of the three role flags of a message is truthy. *)
Definition single_role (m : Message) : bool :=
  match flag (isUser m), flag (isBot m), flag (isSystem m) with
  | true, false, false
  | false, true, false
  | false, false, true
  | false, false, false => true
  | _, _, _ => false
  end.

(** The message of the error that [connectToRoom] throws on a settled
    token request, if it throws. *)
Definition fetch_failure (r : fetch_result) : option string :=
  match r with
  | FetchRejected error_message => Some error_message
  | FetchResponse false status errorData _ =>
      Some ("Token request failed: " ++ show_nat status ++ " "
            ++ errorData)%string
  | FetchResponse true _ _ (inl error_message) => Some error_message
  | FetchResponse true _ _ (inr _) => None
  end.

End Components.

Module MoreSamples.
Import JS.

(** A signer that throws. *)
Definition failing_sign (claims secret : value) : string + string :=
  inr "secretOrPrivateKey must have a value".

Definition get (o : object) : TokenIssuer.request :=
  {| TokenIssuer.method := "GET"; TokenIssuer.body := o |}.

(** A POST with whatever the body parser produced. *)
Definition post_any (v : value) : TokenIssuer.raw_request :=
  {| TokenIssuer.raw_method := "POST"; TokenIssuer.raw_body := v |}.

(** The state while the token is being fetched for bob. *)
Definition joining : ChatRoom.state :=
  {| ChatRoom.room := None;
     ChatRoom.messages := [];
     ChatRoom.inputMessage := EmptyString;
     ChatRoom.username := " bob ";
     ChatRoom.isConnected := false;
     ChatRoom.isConnecting := true;
     ChatRoom.error := EmptyString;
     ChatRoom.participants := [] |}.

(** The chat screen between the Connected event and the resolution of
    [room.connect]: [room] is still [null]. *)
Definition half_connected : ChatRoom.state :=
  {| ChatRoom.room := None;
     ChatRoom.messages := [Samples.greeting];
     ChatRoom.inputMessage := "hello";
     ChatRoom.username := "bob";
     ChatRoom.isConnected := true;
     ChatRoom.isConnecting := false;
     ChatRoom.error := EmptyString;
     ChatRoom.participants := ["bob"] |}.

End MoreSamples.

(** ** Facts about trimming *)

Module JSFacts.
Import JS.

Lemma blank_trimStart (s : string) :
  blank s = true -> trimStart s = EmptyString.
Proof.
  induction s as [|c rest IH]; simpl; intro H; [reflexivity|].
  apply andb_true_iff in H as [Hc Hrest].
  rewrite Hc. now apply IH.
Qed.

Lemma blank_trim (s : string) : blank s = true -> trim s = EmptyString.
Proof.
  intro H. unfold trim. now rewrite blank_trimStart.
Qed.

(** What [trimStart] returns is empty or starts with a visible character. *)
Lemma trimStart_head (s : string) :
  trimStart s = EmptyString \/
  exists c rest, trimStart s = String c rest /\ is_white_space c = false.
Proof.
  induction s as [|c rest IH]; simpl; [now left|].
  destruct (is_white_space c) eqn:Hc; [exact IH|].
  right. now exists c, rest.
Qed.

Lemma trimEnd_head (c : ascii) (rest : string) :
  is_white_space c = false ->
  exists kept, trimEnd (String c rest) = String c kept.
Proof.
  intro Hc. simpl. destruct (trimEnd rest) as [|d kept].
  - rewrite Hc. now exists EmptyString.
  - now exists (String d kept).
Qed.

Lemma trim_not_blank (s : string) :
  trim s <> EmptyString -> blank (trim s) = false.
Proof.
  unfold trim. intro Hne.
  destruct (trimStart_head s) as [He | (c & rest & Hs & Hc)].
  - rewrite He in Hne. now elim Hne.
  - rewrite Hs. destruct (trimEnd_head c rest Hc) as [kept Hk].
    rewrite Hk. simpl. now rewrite Hc.
Qed.

Lemma nonempty_true (s : string) : nonempty s = true <-> s <> EmptyString.
Proof.
  unfold nonempty. destruct s; simpl; split; intro H;
    congruence || reflexivity || discriminate.
Qed.

Lemma truthy_VStr (s : string) :
  s <> EmptyString -> truthy (VStr s) = true.
Proof. intro H. now apply nonempty_true. Qed.

End JSFacts.

(** ** The token issuer's contract *)

Module TokenIssuerProofs.
Import JS TokenIssuer.

Lemma truthy_env_read (v : option string) :
  truthy (env_read v) = negb (absent v).
Proof. now destruct v. Qed.

Lemma valid_config_truthy (e : env) :
  valid_config e ->
  truthy (env_read (LIVEKIT_API_KEY e)) = true /\
  truthy (env_read (LIVEKIT_API_SECRET e)) = true /\
  truthy (env_read (LIVEKIT_URL e)) = true.
Proof.
  intros (Hk & Hs & Hu). rewrite !truthy_env_read, Hk, Hs, Hu. now repeat split.
Qed.

(** With a POST, a truthy username and a full configuration the handler
    reaches [jwt.sign] once, and its answer depends on the signer alone. *)
Lemma handler_signs (jwt_sign : value -> value -> string + string)
    (date_now : Z) (e : env) (req : request) :
  method req = "POST" ->
  truthy (obj_get "username" (body req)) = true ->
  valid_config e ->
  handler jwt_sign date_now e req =
  let p := payload (env_read (LIVEKIT_API_KEY e))
             (obj_get "username" (body req)) (date_now / 1000) in
  let secret := env_read (LIVEKIT_API_SECRET e) in
  match jwt_sign p secret with
  | inl token =>
      {| signing := [ (p, secret) ];
         sent := {| status := 200;
                    json := VObj [ ("token", VStr token);
                                   ("wsUrl", env_read (LIVEKIT_URL e));
                                   ("roomName", VStr roomName) ] |} |}
  | inr message =>
      {| signing := [ (p, secret) ];
         sent := {| status := 500;
                    json := VObj [ ("error", VStr "Failed to generate token");
                                   ("details", VStr message) ] |} |}
  end.
Proof.
  intros Hm Hu Hc. destruct (valid_config_truthy e Hc) as (Hk & Hs & Hw).
  unfold handler. rewrite Hm, Hu, Hk, Hs, Hw. reflexivity.
Qed.

(** A token leaves the handler only through the success response, which
    needs a POST. *)
Lemma issued_token_inv (jwt_sign : value -> value -> string + string)
    (date_now : Z) (e : env) (req : request) (tok : string) :
  issued_token (handler jwt_sign date_now e req) = Some tok ->
  method req = "POST" /\
  jwt_sign (payload (env_read (LIVEKIT_API_KEY e))
              (obj_get "username" (body req)) (date_now / 1000))
           (env_read (LIVEKIT_API_SECRET e)) = inl tok.
Proof.
  unfold handler.
  destruct (method req =? "POST")%string eqn:Hm; simpl; [|discriminate].
  apply String.eqb_eq in Hm.
  destruct (truthy (obj_get "username" (body req))); simpl; [|discriminate].
  destruct (negb (truthy (env_read (LIVEKIT_API_KEY e)))
            || negb (truthy (env_read (LIVEKIT_API_SECRET e)))
            || negb (truthy (env_read (LIVEKIT_URL e)))); [discriminate|].
  destruct (jwt_sign _ _) as [token | message] eqn:Hsign; [|discriminate].
  unfold issued_token. simpl. intro H. injection H as ->. now split.
Qed.

(** C3.  With a valid configuration and username ["alice"], every token the
    handler hands out was signed over claims with [sub = "alice"],
    [exp - nbf = 21600], [video.room = "ai-chat-room"] and the four grants
    [roomJoin], [canPublish], [canSubscribe] and [canPublishData] all
    [true]; and for a POST the handler does hand out whatever token the
    signer returns. *)
Theorem alice_token_claims (jwt_sign : value -> value -> string + string)
    (date_now : Z) (e : env) (req : request) :
  valid_config e ->
  obj_get "username" (body req) = VStr "alice" ->
  let o := handler jwt_sign date_now e req in
  (forall tok, issued_token o = Some tok ->
     exists claims secret nbf exp,
       signing o = [ (claims, secret) ] /\
       jwt_sign claims secret = inl tok /\
       prop "sub" claims = VStr "alice" /\
       prop "nbf" claims = VNum nbf /\
       prop "exp" claims = VNum exp /\
       exp - nbf = 21600 /\
       prop "room" (prop "video" claims) = VStr "ai-chat-room" /\
       prop "roomJoin" (prop "video" claims) = VBool true /\
       prop "canPublish" (prop "video" claims) = VBool true /\
       prop "canSubscribe" (prop "video" claims) = VBool true /\
       prop "canPublishData" (prop "video" claims) = VBool true) /\
  (method req = "POST" ->
   forall tok,
     jwt_sign (payload (env_read (LIVEKIT_API_KEY e)) (VStr "alice")
                 (date_now / 1000))
              (env_read (LIVEKIT_API_SECRET e)) = inl tok ->
     status (sent o) = 200 /\ issued_token o = Some tok).
Proof.
  intros Hc Hu o. split.
  - intros tok Htok.
    destruct (issued_token_inv _ _ _ _ _ Htok) as [Hm Hsign].
    subst o. rewrite handler_signs; try assumption; [|now rewrite Hu].
    cbv zeta. rewrite Hsign. rewrite Hu in *.
    eexists _, _, (date_now / 1000), (date_now / 1000 + 6 * 60 * 60).
    split; [reflexivity|]. split; [exact Hsign|].
    repeat split; try reflexivity. lia.
  - intros Hm tok Hsign. subst o.
    rewrite handler_signs; try assumption; [|now rewrite Hu].
    cbv zeta. rewrite Hu, Hsign. now split.
Qed.

Lemma alice_token_claims_witness :
  let o := handler Samples.sample_sign 1700000000123 Samples.sample_env
             (Samples.post [ ("username", VStr "alice") ]) in
  status (sent o) = 200 /\
  issued_token o = Some "header.claims.signature".
Proof.
  refine (proj2 (alice_token_claims Samples.sample_sign 1700000000123
                   Samples.sample_env
                   (Samples.post [ ("username", VStr "alice") ]) _ _)
                _ "header.claims.signature" _).
  - repeat split.
  - reflexivity.
  - reflexivity.
  - reflexivity.
Defined.

(** A POST whose body is an object and whose username is missing or the
    empty string is answered with status 400 and the error
    ["Username is required"]; [jwt.sign] is never called and no token is
    handed out, whatever the configuration. *)
Lemma missing_username_rejected
    (jwt_sign : value -> value -> string + string)
    (date_now : Z) (e : env) (req : request) :
  method req = "POST" ->
  obj_get "username" (body req) = VUndefined \/
  obj_get "username" (body req) = VStr EmptyString ->
  let o := handler jwt_sign date_now e req in
  status (sent o) = 400 /\
  json (sent o) = VObj [ ("error", VStr "Username is required") ] /\
  signing o = [] /\
  issued_token o = None.
Proof.
  intros Hm Hu o. subst o. unfold handler. rewrite Hm.
  destruct Hu as [-> | ->]; now repeat split.
Qed.




End TokenIssuerProofs.

(** ** The session controller's behaviour *)

Module ChatRoomProofs.
Import JS ChatRoom.

(** Unfolds a handler down to the record it returns. *)
Ltac handler_steps :=
  unfold exec, effects, connectToRoom, connectToRoom_catch, disconnect,
    on_Connected, on_Disconnected, on_ParticipantConnected,
    on_ParticipantDisconnected, updateParticipantsList, sendMessage,
    sendMessage_catch, bind, ret, read, emit, setRoom, setMessages,
    setInputMessage, setUsername, setIsConnected, setIsConnecting, setError,
    setParticipants;
  cbn [fst snd room messages inputMessage username isConnected isConnecting
       error participants app].

Lemma render_Connected (s : state) :
  render s = Connected <-> isConnected s = true /\ isConnecting s = false.
Proof.
  unfold render. destruct (isConnected s), (isConnecting s); simpl;
    split; intro H; try discriminate; try (now destruct H); auto.
Qed.

Lemma includes_In (l : list string) (x : string) :
  includes l x = true <-> In x l.
Proof.
  unfold includes. rewrite existsb_exists. split.
  - intros (y & Hy & Heq). apply String.eqb_eq in Heq. now subst.
  - intro H. exists x. split; [assumption | apply String.eqb_refl].
Qed.

Lemma same_room_refl (r : nat) : same_room r r = true.
Proof. apply Nat.eqb_refl. Qed.

Lemma Qeq_bool_inject_Z (a b : Z) :
  Qeq_bool (inject_Z a) (inject_Z b) = (a =? b).
Proof.
  unfold Qeq_bool, inject_Z. simpl. now rewrite !Z.mul_1_r.
Qed.

Lemma filter_by_clock_In (clock : nat -> Z) (l : list Message) (i : nat)
    (m : Message) :
  In m (filter_by_clock clock i l) -> In m l.
Proof.
  revert i. induction l as [|x rest IH]; intros i H; [exact H|].
  cbn [filter_by_clock] in H.
  destruct (negb (Qeq_bool (id x) (inject_Z (clock i)))).
  - destruct H as [H | H]; [now left | right; now apply (IH (S i))].
  - right. now apply (IH (S i)).
Qed.

Lemma filter_by_clock_app (clock : nat -> Z) (l : list Message) (i : nat)
    (m : Message) :
  filter_by_clock clock i (l ++ [m]) =
  filter_by_clock clock i l ++
  (if negb (Qeq_bool (id m) (inject_Z (clock (i + List.length l)%nat)))
   then [m] else []).
Proof.
  revert i. induction l as [|x rest IH]; intro i.
  - cbn. rewrite Nat.add_0_r.
    now destruct (negb (Qeq_bool (id m) (inject_Z (clock i)))).
  - cbn [app filter_by_clock List.length]. rewrite IH.
    replace (S i + List.length rest)%nat with (i + S (List.length rest))%nat
      by lia.
    now destruct (negb (Qeq_bool (id x) (inject_Z (clock i)))).
Qed.

Lemma filter_by_clock_length (clock : nat -> Z) (l : list Message) (i : nat) :
  (List.length (filter_by_clock clock i l) <= List.length l)%nat.
Proof.
  revert i. induction l as [|x rest IH]; intro i; [apply Nat.le_refl|].
  cbn [filter_by_clock List.length]. specialize (IH (S i)).
  destruct (negb (Qeq_bool (id x) (inject_Z (clock i)))); cbn; lia.
Qed.

(** A clock that does not tick while the filter runs makes it an ordinary
    filter. *)
Lemma filter_by_clock_still (clock : nat -> Z) (t : Z) (l : list Message)
    (i : nat) :
  (forall j, clock j = t) ->
  filter_by_clock clock i l =
  filter (fun msg => negb (Qeq_bool (id msg) (inject_Z t))) l.
Proof.
  intro Hc. revert i. induction l as [|x rest IH]; intro i; [reflexivity|].
  cbn [filter_by_clock filter]. now rewrite Hc, IH.
Qed.

(** The failure path of [sendMessage] keeps every message whose identifier
    differs from all the readings of the clock. *)
Lemma sendMessage_catch_keeps (s : state) (e : string) (clock : nat -> Z)
    (m : Message) :
  In m (messages s) ->
  (forall i, Qeq_bool (id m) (inject_Z (clock i)) = false) ->
  In m (messages (exec (sendMessage_catch e clock) s)).
Proof.
  intros Hin Hid. handler_steps. generalize 0%nat.
  induction (messages s) as [|x rest IH]; intro i; [exact Hin|].
  cbn [filter_by_clock]. destruct Hin as [-> | Hin].
  - rewrite Hid. now left.
  - destruct (negb (Qeq_bool (id x) (inject_Z (clock i))));
      [right|]; now apply IH.
Qed.

(** X12.  A ParticipantConnected event never duplicates an identity: a
    participant list without duplicates has none afterwards. *)
Lemma participant_connected_NoDup (s : state) (p : participant) (t1 t2 : Z) :
  NoDup (participants s) ->
  NoDup (participants (exec (on_ParticipantConnected p t1 t2) s)).
Proof.
  intro Hnd.
  assert (Hp : participants (exec (on_ParticipantConnected p t1 t2) s) =
               if negb (includes (participants s) (identity p))
               then participants s ++ [identity p] else participants s).
  { handler_steps. now destruct (identity p =? "ai-agent")%string. }
  rewrite Hp. destruct (includes (participants s) (identity p)) eqn:Hi;
    simpl; [assumption|].
  apply NoDup_app; repeat split; try assumption.
  - constructor; [intros [] | constructor].
  - intros x Hx [<- | []]. apply includes_In in Hx. congruence.
Qed.

(** C1, as the claim states it, fails on the event path: the callback of
    the room's Disconnected event keeps the messages and adds one, so the
    list it leaves is never empty. *)
Lemma disconnected_event_keeps_messages :
  render Samples.chatting = Connected /\
  messages (exec (on_Disconnected 1700000009000 1700000009000)
              Samples.chatting) <> [].
Proof.
  split; [reflexivity | discriminate].
Qed.

(** C1, amended.  From the chat screen, the disconnect action leads back to
    the login screen with the participants, the messages, the error and the
    room reference cleared; the room's Disconnected event leads back to the
    login screen with the participants cleared, and leaves the earlier
    messages in place, followed by the system message
    ["Disconnected from chat room"]. *)
Theorem disconnect_paths (s : state) (date_now new_date : Z) :
  render s = Connected ->
  let by_action := exec disconnect s in
  let by_event := exec (on_Disconnected date_now new_date) s in
  (render by_action = Idle /\
   participants by_action = [] /\
   messages by_action = [] /\
   error by_action = EmptyString /\
   room by_action = None) /\
  (render by_event = Idle /\
   participants by_event = [] /\
   messages by_event =
     messages s ++
     [system_message date_now new_date "Disconnected from chat room"] /\
   transcript (messages by_event) =
     transcript (messages s) ++ [(System, "Disconnected from chat room")]).
Proof.
  intros Hc by_action by_event.
  apply render_Connected in Hc as [_ Hing].
  subst by_action by_event. split.
  - destruct (room s) eqn:Hr; handler_steps; rewrite Hr;
      unfold render; cbn; rewrite Hing; now repeat split.
  - handler_steps. unfold render; cbn. rewrite Hing.
    repeat split. unfold transcript. now rewrite map_app.
Qed.

Lemma disconnect_paths_witness :
  messages (exec disconnect Samples.chatting) = [] /\
  transcript (messages (exec (on_Disconnected 1700000009000 1700000009001)
                          Samples.chatting)) =
    [(System, "Connected to chat room!");
     (System, "Disconnected from chat room")].
Proof.
  pose proof (disconnect_paths Samples.chatting 1700000009000 1700000009001
                eq_refl) as [(_ & _ & Ha & _) (_ & _ & _ & Hb)].
  split; [exact Ha | exact Hb].
Defined.

(** C7.  A join with an empty or blank username only sets the error: the
    screen stays what it was (so the login screen stays the login screen),
    messages, participants and the room reference are untouched, and no
    request is sent. *)
Theorem blank_username_join (s : state) :
  blank (username s) = true ->
  let s' := exec connectToRoom s in
  (render s = Idle -> render s' = Idle) /\
  isConnected s' = isConnected s /\
  isConnecting s' = isConnecting s /\
  error s' = "Please enter a username" /\
  messages s' = messages s /\
  participants s' = participants s /\
  room s' = room s /\
  effects connectToRoom s = [].
Proof.
  intros Hb s'. subst s'. handler_steps.
  rewrite (JSFacts.blank_trim _ Hb). cbn. now repeat split.
Qed.

Lemma blank_username_join_witness :
  render (exec connectToRoom Samples.spaces_typed) = Idle /\
  error (exec connectToRoom Samples.spaces_typed) = "Please enter a username".
Proof.
  pose proof (blank_username_join Samples.spaces_typed eq_refl)
    as (Hr & _ & _ & He & _).
  split; [exact (Hr eq_refl) | exact He].
Defined.

(** C8.  A ParticipantConnected event for an identity that is already in the
    participant list leaves the list as it is. *)
Theorem participant_connected_idempotent (s : state) (p : participant)
    (date_now new_date : Z) :
  In (identity p) (participants s) ->
  participants (exec (on_ParticipantConnected p date_now new_date) s) =
  participants s.
Proof.
  intro Hin. apply includes_In in Hin. handler_steps. rewrite Hin.
  now destruct (identity p =? "ai-agent")%string.
Qed.

Lemma participant_connected_idempotent_witness :
  participants
    (exec (on_ParticipantConnected {| identity := "ai-agent" |}
             1700000005000 1700000005000) Samples.chatting) =
  ["ai-agent"; "bob"].
Proof.
  apply (participant_connected_idempotent Samples.chatting
           {| identity := "ai-agent" |} 1700000005000 1700000005000).
  left. reflexivity.
Defined.

(** C9.  On the Connected event the participant list becomes the remote
    identities followed by the local identity, appended without looking for
    it among them: an identity that also occurs among the remote
    participants is then listed once more than there, so at least twice. *)
Theorem connected_seeds_participants (s : state) (v : room_view)
    (me : participant) (date_now new_date : Z) :
  localParticipant v = Some me ->
  let seeded := participants (exec (on_Connected v date_now new_date) s) in
  seeded = remoteParticipants v ++ [identity me] /\
  count_occ string_dec seeded (identity me) =
    S (count_occ string_dec (remoteParticipants v) (identity me)) /\
  (In (identity me) (remoteParticipants v) ->
   (2 <= count_occ string_dec seeded (identity me))%nat).
Proof.
  intros Hme seeded.
  assert (Hs : seeded = remoteParticipants v ++ [identity me]).
  { subst seeded. handler_steps. now rewrite Hme. }
  rewrite Hs. split; [reflexivity|].
  assert (Hc : count_occ string_dec (remoteParticipants v ++ [identity me])
                 (identity me) =
               S (count_occ string_dec (remoteParticipants v) (identity me))).
  { rewrite count_occ_app. simpl.
    destruct (string_dec (identity me) (identity me)); [lia | congruence]. }
  split; [exact Hc|].
  intro Hin. rewrite Hc.
  apply (count_occ_In string_dec) in Hin. lia.
Qed.

Lemma connected_seeds_participants_witness :
  let seeded :=
    participants
      (exec (on_Connected Samples.echoing_room 1700000000000 1700000000000)
         initial) in
  seeded = ["ai-agent"; "bob"; "bob"] /\
  (2 <= count_occ string_dec seeded "bob")%nat.
Proof.
  pose proof (connected_seeds_participants initial Samples.echoing_room
                {| identity := "bob" |} 1700000000000 1700000000000
                eq_refl) as (Hs & _ & Htwice).
  split; [exact Hs | apply Htwice].
  right. left. reflexivity.
Defined.

Section WithCodec.

Variable encode : string -> list byte.
Variable decode : list byte -> option string.

(** C2.  When the publish throws, the error becomes
    ["Failed to send message: "] followed by the error's message, and the
    list is filtered by the clock read while the filter runs, not by the
    identifier of the optimistic message: if the reading taken for the
    optimistic message differs from the reading it was stamped with, the
    optimistic message stays in the list. *)
Theorem failed_send_keeps_optimistic (s : state)
    (sent_at new_date : Z) (failed_at : nat -> Z) (error_message : string) :
  nonempty (trim (inputMessage s)) = true ->
  room s <> None ->
  isConnected s = true ->
  sent_at <> failed_at (List.length (messages s)) ->
  let mine :=
    optimistic (username s) (trim (inputMessage s)) sent_at new_date in
  let s1 := exec (sendMessage encode sent_at new_date) s in
  let s2 := exec (sendMessage_catch error_message failed_at) s1 in
  messages s1 = messages s ++ [mine] /\
  effects (sendMessage encode sent_at new_date) s =
    [PublishData (encode (trim (inputMessage s))) true] /\
  error s2 = ("Failed to send message: " ++ error_message)%string /\
  messages s2 = filter_by_clock failed_at 0 (messages s) ++ [mine] /\
  In mine (messages s2).
Proof.
  intros Hin Hroom Hconn Hne mine s1 s2.
  assert (H1 : messages s1 = messages s ++ [mine] /\
               effects (sendMessage encode sent_at new_date) s =
                 [PublishData (encode (trim (inputMessage s))) true]).
  { subst s1 mine. handler_steps. rewrite Hin, Hconn.
    destruct (room s); [now split | congruence]. }
  destruct H1 as [Hm He].
  assert (Hid : Qeq_bool (id mine)
                  (inject_Z (failed_at (0 + List.length (messages s))%nat))
                = false).
  { subst mine. unfold optimistic. cbn [id Nat.add].
    rewrite Qeq_bool_inject_Z. now apply Z.eqb_neq. }
  assert (H2 : messages s2 =
               filter_by_clock failed_at 0 (messages s) ++ [mine]).
  { clearbody mine. subst s2. handler_steps. fold s1.
    rewrite Hm, filter_by_clock_app, Hid. reflexivity. }
  split; [exact Hm|]. split; [exact He|].
  split; [subst s2; handler_steps; reflexivity|].
  split; [exact H2|].
  rewrite H2. apply in_or_app. right. now left.
Qed.

(** C4.  Joining as ["bob"], the room's Connected event, sending ["hi"]
    and a DataReceived event from ["ai-agent"] whose payload decodes to
    ["hi back"] leave exactly three messages, in this order: the system
    message ["Connected to chat room!"], the user's ["hi"] and the agent's
    ["hi back"]. *)
Theorem end_to_end_transcript (data : object) (v : room_view)
    (new_room : nat) (payload : list byte) (random : Q)
    (t1 t2 t3 t4 t5 t6 : Z) :
  decode payload = Some "hi back" ->
  let trace :=
    [ TypeUsername "bob";
      ClickJoin;
      FetchSettled (FetchResponse true 200 EmptyString (inr data));
      EvConnected v t1 t2;
      ConnectResolved new_room;
      TypeMessage "hi";
      ClickSend t3 t4;
      PublishResolved;
      EvDataReceived payload (Some {| identity := "ai-agent" |})
        t5 random t6 ] in
  let '(final, calls) := run encode decode initial trace in
  transcript (messages final) =
    [ (System, "Connected to chat room!"); (User, "hi");
      (Agent, "hi back") ] /\
  render final = Connected /\
  calls =
    [ Fetch "/api/get-token" "POST" [ ("username", VStr "bob") ];
      RoomConnect (obj_get "wsUrl" data) (obj_get "token" data) true;
      PublishData (encode "hi") true ].
Proof.
  intros Hd trace. subst trace.
  cbv - [obj_get Qplus inject_Z same_room]. rewrite Hd.
  cbv - [obj_get Qplus inject_Z same_room]. rewrite !same_room_refl.
  repeat split; reflexivity.
Qed.

(** While [room.connect] has not resolved, [room] is still [null] and a
    send is dropped: the same events without that resolution leave the
    system message and the agent's reply only. *)
Lemma send_before_connect_resolves (data : object) (v : room_view)
    (payload : list byte) (random : Q) (t1 t2 t3 t4 t5 t6 : Z) :
  decode payload = Some "hi back" ->
  transcript
    (messages
       (fst (run encode decode initial
               [ TypeUsername "bob";
                 ClickJoin;
                 FetchSettled (FetchResponse true 200 EmptyString (inr data));
                 EvConnected v t1 t2;
                 TypeMessage "hi";
                 ClickSend t3 t4;
                 EvDataReceived payload (Some {| identity := "ai-agent" |})
                   t5 random t6 ]))) =
  [ (System, "Connected to chat room!"); (Agent, "hi back") ].
Proof.
  intro Hd.
  cbv - [obj_get Qplus inject_Z same_room]. rewrite Hd. reflexivity.
Qed.

End WithCodec.

Lemma failed_send_keeps_optimistic_witness :
  In (optimistic "bob" "hello" 1700000001000 1700000001000)
     (messages
        (exec (sendMessage_catch "data channel closed"
                 (fun i => 1700000001250 + Z.of_nat i))
           (exec (sendMessage Samples.sample_encode
                    1700000001000 1700000001000) Samples.chatting))).
Proof.
  apply (failed_send_keeps_optimistic Samples.sample_encode Samples.chatting
           1700000001000 1700000001000
           (fun i => 1700000001250 + Z.of_nat i) "data channel closed").
  - reflexivity.
  - discriminate.
  - reflexivity.
  - cbn. lia.
Defined.

Lemma end_to_end_transcript_witness :
  transcript
    (messages
       (fst (run Samples.sample_encode Samples.sample_decode initial
               [ TypeUsername "bob";
                 ClickJoin;
                 FetchSettled
                   (FetchResponse true 200 EmptyString
                      (inr [ ("token", VStr "header.claims.signature");
                             ("wsUrl", VStr "wss://chat.example");
                             ("roomName", VStr "ai-chat-room") ]));
                 EvConnected Samples.echoing_room 1700000000000 1700000000001;
                 ConnectResolved 1%nat;
                 TypeMessage "hi";
                 ClickSend 1700000002000 1700000002001;
                 PublishResolved;
                 EvDataReceived (list_byte_of_string "hi back")
                   (Some {| identity := "ai-agent" |})
                   1700000003000 (1 # 2) 1700000003001 ]))) =
  [ (System, "Connected to chat room!"); (User, "hi"); (Agent, "hi back") ].
Proof.
  pose proof (end_to_end_transcript Samples.sample_encode
                Samples.sample_decode
                [ ("token", VStr "header.claims.signature");
                  ("wsUrl", VStr "wss://chat.example");
                  ("roomName", VStr "ai-chat-room") ]
                Samples.echoing_room 1%nat (list_byte_of_string "hi back")
                (1 # 2) 1700000000000 1700000000001 1700000002000
                1700000002001 1700000003000 1700000003001 eq_refl) as H.
  cbv zeta in H.
  destruct (run _ _ _ _) as [final calls]. exact (proj1 H).
Defined.

End ChatRoomProofs.

(** ** The join request, from the controller to the token issuer *)

Module JoinRequest.
Import JS.


(** What [connectToRoom] puts on the wire is the trimmed username, and
    only when something is left of it. *)
Lemma connectToRoom_fetch (s : ChatRoom.state) :
  ChatRoom.effects ChatRoom.connectToRoom s =
  if nonempty (trim (ChatRoom.username s)) then
    [ ChatRoom.Fetch "/api/get-token" "POST"
        [ ("username", VStr (trim (ChatRoom.username s))) ] ]
  else [].
Proof.
  ChatRoomProofs.handler_steps.
  now destruct (nonempty (trim (ChatRoom.username s))).
Qed.

(** C10.  The token issuer turns away the falsy usernames only.  A POST
    whose username is a non-empty string of white space, met with a valid
    configuration, reaches [jwt.sign] with that very string as [sub], and
    the token the signer returns is sent back with status 200.  The
    controller, for its part, only ever sends the trimmed username, which
    is never blank. *)
Theorem whitespace_username_signed
    (jwt_sign : value -> value -> string + string) (date_now : Z)
    (e : TokenIssuer.env) (req : TokenIssuer.request) (s : string) :
  TokenIssuer.method req = "POST" ->
  TokenIssuer.valid_config e ->
  s <> EmptyString ->
  blank s = true ->
  obj_get "username" (TokenIssuer.body req) = VStr s ->
  let o := TokenIssuer.handler jwt_sign date_now e req in
  (exists claims secret,
     TokenIssuer.signing o = [ (claims, secret) ] /\
     prop "sub" claims = VStr s /\
     forall tok, jwt_sign claims secret = inl tok ->
       TokenIssuer.status (TokenIssuer.sent o) = 200 /\
       TokenIssuer.issued_token o = Some tok) /\
  (forall st url m b,
     In (ChatRoom.Fetch url m b)
        (ChatRoom.effects ChatRoom.connectToRoom st) ->
     b = [ ("username", VStr (trim (ChatRoom.username st))) ] /\
     blank (trim (ChatRoom.username st)) = false).
Proof.
  intros Hm Hc Hne Hb Hu o. split.
  - subst o. rewrite TokenIssuerProofs.handler_signs; try assumption.
    2:{ rewrite Hu. now apply JSFacts.truthy_VStr. }
    cbv zeta. rewrite Hu.
    destruct (jwt_sign _ _) as [token | message] eqn:Hsign.
    + eexists _, _. split; [reflexivity|]. split; [reflexivity|].
      intros tok Htok. rewrite Hsign in Htok. injection Htok as ->.
      now split.
    + eexists _, _. split; [reflexivity|]. split; [reflexivity|].
      intros tok Htok. rewrite Hsign in Htok. discriminate.
  - intros st url m b Hin. rewrite connectToRoom_fetch in Hin.
    destruct (nonempty (trim (ChatRoom.username st))) eqn:Hn;
      [|now destruct Hin].
    destruct Hin as [Heq | []]. injection Heq as _ _ <-.
    split; [reflexivity|].
    apply JSFacts.trim_not_blank. now apply JSFacts.nonempty_true.
Qed.

Lemma whitespace_username_signed_witness :
  let o := TokenIssuer.handler Samples.sample_sign 1700000000123
             Samples.sample_env (Samples.post [ ("username", VStr " ") ]) in
  exists claims secret,
    TokenIssuer.signing o = [ (claims, secret) ] /\
    prop "sub" claims = VStr " " /\
    forall tok, Samples.sample_sign claims secret = inl tok ->
      TokenIssuer.status (TokenIssuer.sent o) = 200 /\
      TokenIssuer.issued_token o = Some tok.
Proof.
  refine (proj1 (whitespace_username_signed Samples.sample_sign
                   1700000000123 Samples.sample_env
                   (Samples.post [ ("username", VStr " ") ]) " "
                   _ _ _ _ _)).
  - reflexivity.
  - repeat split.
  - discriminate.
  - reflexivity.
  - reflexivity.
Defined.

End JoinRequest.

(** ** More on the token issuer *)

Module TokenIssuerMore.
Import JS TokenIssuer.

Lemma valid_config_iff (e : env) :
  valid_config e <->
  negb (truthy (env_read (LIVEKIT_API_KEY e)))
  || negb (truthy (env_read (LIVEKIT_API_SECRET e)))
  || negb (truthy (env_read (LIVEKIT_URL e))) = false.
Proof.
  unfold valid_config. rewrite !TokenIssuerProofs.truthy_env_read.
  rewrite !negb_involutive.
  destruct (absent (LIVEKIT_API_KEY e)), (absent (LIVEKIT_API_SECRET e)),
    (absent (LIVEKIT_URL e)); simpl; intuition congruence.
Qed.

(** On a request whose body is an object, [jwt.sign] is called exactly
    when the request is a POST with a truthy username and all three
    configuration values are present, at most once and with the configured
    secret; the status sent is one of 200, 400, 405 and 500. *)
Lemma signing_condition (jwt_sign : value -> value -> string + string)
    (date_now : Z) (e : env) (req : request) :
  let o := handler jwt_sign date_now e req in
  (signing o <> [] <->
   method req = "POST" /\
   truthy (obj_get "username" (body req)) = true /\
   valid_config e) /\
  (signing o = [] \/
   exists claims,
     signing o = [ (claims, env_read (LIVEKIT_API_SECRET e)) ]) /\
  In (status (sent o)) [200; 400; 405; 500].
Proof.
  intro o. subst o. unfold handler.
  destruct (method req =? "POST")%string eqn:Hm; cbn [negb].
  2:{ apply String.eqb_neq in Hm. cbn. split; [|split; [now left | tauto]].
      split; [intro H; now elim H | intros [H _]; contradiction]. }
  apply String.eqb_eq in Hm.
  destruct (truthy (obj_get "username" (body req))) eqn:Hu; cbn [negb].
  2:{ cbn. split; [|split; [now left | tauto]].
      split; [intro H; now elim H | intros (_ & H & _); discriminate]. }
  destruct (negb _ || negb _ || negb _) eqn:Hc.
  - cbn. split; [|split; [now left | tauto]].
    split; [intro H; now elim H|].
    intros (_ & _ & Hv). apply valid_config_iff in Hv. congruence.
  - apply valid_config_iff in Hc.
    destruct (jwt_sign _ _) as [token | message]; cbn;
      (split; [|split; [right; eexists; reflexivity | tauto]]);
      (split; [now intros _ | discriminate]).
Qed.

(** X2.  Any method other than POST is answered with 405 and
    ["Method not allowed"], before the body and the configuration are
    looked at: nothing is signed, whatever they hold. *)
Theorem method_not_allowed (jwt_sign : value -> value -> string + string)
    (date_now : Z) (e : env) (req : request) :
  method req <> "POST" ->
  let o := handler jwt_sign date_now e req in
  status (sent o) = 405 /\
  json (sent o) = VObj [ ("error", VStr "Method not allowed") ] /\
  signing o = [] /\
  issued_token o = None.
Proof.
  intros Hm o. subst o. unfold handler.
  apply String.eqb_neq in Hm. rewrite Hm. now repeat split.
Qed.

Lemma method_not_allowed_witness :
  let o := handler Samples.sample_sign 1700000000123 Samples.sample_env
             (MoreSamples.get [ ("username", VStr "alice") ]) in
  status (sent o) = 405 /\
  json (sent o) = VObj [ ("error", VStr "Method not allowed") ] /\
  signing o = [] /\
  issued_token o = None.
Proof.
  apply (method_not_allowed Samples.sample_sign 1700000000123
           Samples.sample_env
           (MoreSamples.get [ ("username", VStr "alice") ])).
  discriminate.
Defined.

(** X3.  When [jwt.sign] throws, the handler answers 500 with the error
    ["Failed to generate token"] and the thrown message as [details], and
    hands out no token. *)
Theorem signing_failure_reported
    (jwt_sign : value -> value -> string + string)
    (date_now : Z) (e : env) (req : request) (message : string) :
  method req = "POST" ->
  truthy (obj_get "username" (body req)) = true ->
  valid_config e ->
  jwt_sign (payload (env_read (LIVEKIT_API_KEY e))
              (obj_get "username" (body req)) (date_now / 1000))
           (env_read (LIVEKIT_API_SECRET e)) = inr message ->
  let o := handler jwt_sign date_now e req in
  status (sent o) = 500 /\
  json (sent o) = VObj [ ("error", VStr "Failed to generate token");
                         ("details", VStr message) ] /\
  issued_token o = None.
Proof.
  intros Hm Hu Hc Hsign o. subst o.
  rewrite TokenIssuerProofs.handler_signs by assumption.
  cbv zeta. rewrite Hsign. now repeat split.
Qed.

Lemma signing_failure_reported_witness :
  let o := handler MoreSamples.failing_sign 1700000000123 Samples.sample_env
             (Samples.post [ ("username", VStr "alice") ]) in
  status (sent o) = 500 /\
  json (sent o) =
    VObj [ ("error", VStr "Failed to generate token");
           ("details", VStr "secretOrPrivateKey must have a value") ] /\
  issued_token o = None.
Proof.
  apply (signing_failure_reported MoreSamples.failing_sign 1700000000123
           Samples.sample_env (Samples.post [ ("username", VStr "alice") ])
           "secretOrPrivateKey must have a value").
  - reflexivity.
  - reflexivity.
  - repeat split.
  - reflexivity.
Defined.

(** X4.  The success response has exactly the keys [token], [wsUrl] and
    [roomName]: the signer's token, the configured LiveKit URL and
    ["ai-chat-room"].  The token was signed with the configured secret over
    claims whose [iss] is the configured key. *)
Theorem success_response_shape
    (jwt_sign : value -> value -> string + string)
    (date_now : Z) (e : env) (req : request) (tok : string) :
  issued_token (handler jwt_sign date_now e req) = Some tok ->
  let o := handler jwt_sign date_now e req in
  exists fields claims,
    json (sent o) = VObj fields /\
    keys fields = [ "token"; "wsUrl"; "roomName" ] /\
    obj_get "token" fields = VStr tok /\
    obj_get "wsUrl" fields = env_read (LIVEKIT_URL e) /\
    obj_get "roomName" fields = VStr "ai-chat-room" /\
    signing o = [ (claims, env_read (LIVEKIT_API_SECRET e)) ] /\
    jwt_sign claims (env_read (LIVEKIT_API_SECRET e)) = inl tok /\
    prop "iss" claims = env_read (LIVEKIT_API_KEY e).
Proof.
  intros Htok o.
  destruct (TokenIssuerProofs.issued_token_inv _ _ _ _ _ Htok)
    as [Hm Hsign].
  assert (Hu : truthy (obj_get "username" (body req)) = true /\
               valid_config e).
  { revert Htok. unfold handler. rewrite Hm. cbn [String.eqb negb].
    replace ("POST" =? "POST")%string with true by reflexivity. cbn [negb].
    destruct (truthy (obj_get "username" (body req))); cbn [negb];
      [|discriminate].
    destruct (negb _ || negb _ || negb _) eqn:Hc; [discriminate|].
    intros _. split; [reflexivity | now apply valid_config_iff]. }
  destruct Hu as [Hu Hc]. subst o.
  rewrite TokenIssuerProofs.handler_signs by assumption.
  cbv zeta. rewrite Hsign.
  eexists _, _. repeat split; reflexivity || exact Hsign.
Qed.

Lemma success_response_shape_witness :
  let o := handler Samples.sample_sign 1700000000123 Samples.sample_env
             (Samples.post [ ("username", VStr "alice") ]) in
  exists fields claims,
    json (sent o) = VObj fields /\
    keys fields = [ "token"; "wsUrl"; "roomName" ] /\
    obj_get "token" fields = VStr "header.claims.signature" /\
    obj_get "wsUrl" fields = VStr "wss://chat.example" /\
    obj_get "roomName" fields = VStr "ai-chat-room" /\
    signing o = [ (claims, VStr "secret") ] /\
    Samples.sample_sign claims (VStr "secret") =
      inl "header.claims.signature" /\
    prop "iss" claims = VStr "APIkey".
Proof.
  apply (success_response_shape Samples.sample_sign 1700000000123
           Samples.sample_env (Samples.post [ ("username", VStr "alice") ])
           "header.claims.signature").
  reflexivity.
Defined.

(** X5.  Whatever is signed carries [nbf], the clock rounded down to the
    second (never in the future and less than a second old), and [exp]
    exactly 21600 seconds later: the token expires more than 21599 and at
    most 21600 seconds after the clock reading. *)
Theorem token_validity_window (jwt_sign : value -> value -> string + string)
    (date_now : Z) (e : env) (req : request) (claims secret : value) :
  In (claims, secret) (signing (handler jwt_sign date_now e req)) ->
  exists nbf exp,
    prop "nbf" claims = VNum nbf /\
    prop "exp" claims = VNum exp /\
    1000 * nbf <= date_now < 1000 * nbf + 1000 /\
    exp = nbf + 21600 /\
    21599000 < 1000 * exp - date_now <= 21600000.
Proof.
  intro Hin.
  assert (Hp : claims = payload (env_read (LIVEKIT_API_KEY e))
                          (obj_get "username" (body req))
                          (date_now / 1000)).
  { revert Hin. unfold handler.
    destruct (negb (method req =? "POST")%string); [intros []|].
    destruct (negb (truthy _)); [intros []|].
    destruct (negb _ || negb _ || negb _); [intros []|].
    destruct (jwt_sign _ _); cbn; intros [H | []]; congruence. }
  subst claims. exists (date_now / 1000), (date_now / 1000 + 6 * 60 * 60).
  pose proof (Z.div_mod date_now 1000 ltac:(lia)) as Hdm.
  pose proof (Z.mod_pos_bound date_now 1000 ltac:(lia)) as Hb.
  repeat split; try reflexivity; lia.
Qed.

Lemma token_validity_window_witness :
  exists nbf exp,
    prop "nbf" (payload (VStr "APIkey") (VStr "alice") 1700000000) =
      VNum nbf /\
    prop "exp" (payload (VStr "APIkey") (VStr "alice") 1700000000) =
      VNum exp /\
    1000 * nbf <= 1700000000123 < 1000 * nbf + 1000 /\
    exp = nbf + 21600 /\
    21599000 < 1000 * exp - 1700000000123 <= 21600000.
Proof.
  apply (token_validity_window Samples.sample_sign 1700000000123
           Samples.sample_env (Samples.post [ ("username", VStr "alice") ])
           (payload (VStr "APIkey") (VStr "alice") 1700000000)
           (VStr "secret")).
  left. reflexivity.
Defined.

(** X6.  The username is not checked for being a string: any truthy JSON
    value (a number, [true], an object) passes, and is signed as [sub]
    unchanged. *)
Theorem any_truthy_username_signed
    (jwt_sign : value -> value -> string + string)
    (date_now : Z) (e : env) (req : request) :
  method req = "POST" ->
  truthy (obj_get "username" (body req)) = true ->
  valid_config e ->
  let o := handler jwt_sign date_now e req in
  exists claims,
    signing o = [ (claims, env_read (LIVEKIT_API_SECRET e)) ] /\
    prop "sub" claims = obj_get "username" (body req) /\
    status (sent o) <> 400.
Proof.
  intros Hm Hu Hc o. subst o.
  rewrite TokenIssuerProofs.handler_signs by assumption. cbv zeta.
  destruct (jwt_sign _ _); eexists; repeat split; discriminate.
Qed.

Lemma any_truthy_username_signed_witness :
  let o := handler Samples.sample_sign 1700000000123 Samples.sample_env
             (Samples.post [ ("username", VNum 42) ]) in
  exists claims,
    signing o = [ (claims, VStr "secret") ] /\
    prop "sub" claims = VNum 42 /\
    status (sent o) <> 400.
Proof.
  apply (any_truthy_username_signed Samples.sample_sign 1700000000123
           Samples.sample_env (Samples.post [ ("username", VNum 42) ])).
  - reflexivity.
  - reflexivity.
  - repeat split.
Defined.

End TokenIssuerMore.

(** ** More on trimming *)

Module JSMore.
Import JS.

Lemma trimEnd_empty_blank (s : string) :
  trimEnd s = EmptyString -> blank s = true.
Proof.
  induction s as [|c rest IH]; simpl; [reflexivity|].
  destruct (trimEnd rest) as [|d kept]; [|discriminate].
  destruct (is_white_space c); [|discriminate].
  intros _. now rewrite IH.
Qed.

Lemma blank_of_trimStart (s : string) :
  blank (trimStart s) = true -> blank s = true.
Proof.
  induction s as [|c rest IH]; simpl; [reflexivity|].
  destruct (is_white_space c) eqn:Hc; [exact IH|].
  simpl. now rewrite Hc.
Qed.

Lemma trim_empty_iff_blank (s : string) :
  trim s = EmptyString <-> blank s = true.
Proof.
  split; [|apply JSFacts.blank_trim].
  unfold trim. intro H.
  now apply blank_of_trimStart, trimEnd_empty_blank.
Qed.

Lemma nonempty_trim (s : string) :
  nonempty (trim s) = negb (blank s).
Proof.
  destruct (blank s) eqn:Hb.
  - now rewrite (JSFacts.blank_trim _ Hb).
  - apply JSFacts.nonempty_true. intro H.
    apply trim_empty_iff_blank in H. congruence.
Qed.

Lemma trimEnd_idempotent (s : string) : trimEnd (trimEnd s) = trimEnd s.
Proof.
  induction s as [|c rest IH]; [reflexivity|].
  cbn [trimEnd]. destruct (trimEnd rest) as [|d kept] eqn:Hr.
  - destruct (is_white_space c) eqn:Hc; [reflexivity|].
    cbn [trimEnd]. now rewrite Hc.
  - cbn [trimEnd] in *. now rewrite IH.
Qed.

Lemma trim_idempotent (s : string) : trim (trim s) = trim s.
Proof.
  unfold trim.
  destruct (JSFacts.trimStart_head s) as [He | (c & rest & Hs & Hc)].
  - now rewrite He.
  - rewrite Hs. destruct (JSFacts.trimEnd_head c rest Hc) as [kept Hk].
    assert (Hst : trimStart (trimEnd (String c rest)) =
                  trimEnd (String c rest)).
    { rewrite Hk. simpl. now rewrite Hc. }
    rewrite Hst. apply trimEnd_idempotent.
Qed.

End JSMore.

(** ** More on the session controller *)

Module ChatRoomMore.
Import JS ChatRoom Components.

Ltac handler_steps := ChatRoomProofs.handler_steps.

(** X8.  A join with a username that has a visible character shows the
    connecting screen, clears the error and sends one POST to
    [/api/get-token] whose body is the trimmed username, which a further
    trim would not change; messages, participants and the room reference
    are untouched. *)
Theorem join_sends_trimmed_username (s : state) :
  blank (username s) = false ->
  let s' := exec connectToRoom s in
  effects connectToRoom s =
    [ Fetch "/api/get-token" "POST"
        [ ("username", VStr (trim (username s))) ] ] /\
  trim (trim (username s)) = trim (username s) /\
  trim (username s) <> EmptyString /\
  render s' = Connecting /\
  error s' = EmptyString /\
  messages s' = messages s /\
  participants s' = participants s /\
  room s' = room s.
Proof.
  intros Hb s'. subst s'.
  assert (Hn : nonempty (trim (username s)) = true).
  { rewrite JSMore.nonempty_trim, Hb. reflexivity. }
  split; [rewrite JoinRequest.connectToRoom_fetch, Hn; reflexivity|].
  split; [apply JSMore.trim_idempotent|].
  split; [now apply JSFacts.nonempty_true|].
  handler_steps. rewrite Hn. cbn. unfold render. cbn.
  rewrite andb_false_r. now repeat split.
Qed.

Lemma join_sends_trimmed_username_witness :
  effects connectToRoom
    {| room := None; messages := []; inputMessage := EmptyString;
       username := "  bob "; isConnected := false; isConnecting := false;
       error := "Please enter a username"; participants := [] |} =
  [ Fetch "/api/get-token" "POST" [ ("username", VStr "bob") ] ].
Proof.
  exact (proj1 (join_sends_trimmed_username
                  {| room := None; messages := [];
                     inputMessage := EmptyString;
                     username := "  bob "; isConnected := false;
                     isConnecting := false;
                     error := "Please enter a username";
                     participants := [] |} eq_refl)).
Defined.

(** X9.  While no connection attempt is in flight, the Join button of the
    login form is disabled exactly for the usernames that [connectToRoom]
    refuses: those for which it sends nothing and sets
    ["Please enter a username"]. *)
Theorem join_button_matches_guard (s : state) :
  isConnecting s = false ->
  (LoginForm_disabled s = true <->
   effects connectToRoom s = [] /\
   error (exec connectToRoom s) = "Please enter a username").
Proof.
  intro Hc. unfold LoginForm_disabled. rewrite Hc. cbn [orb].
  rewrite JoinRequest.connectToRoom_fetch. handler_steps.
  destruct (nonempty (trim (username s))); cbn.
  - split; [discriminate | intros [H _]; discriminate].
  - now split.
Qed.

Lemma join_button_matches_guard_witness :
  LoginForm_disabled Samples.spaces_typed = true.
Proof.
  apply (join_button_matches_guard Samples.spaces_typed).
  - reflexivity.
  - split; reflexivity.
Defined.

(** X10.  The Send button does not look at [room], [sendMessage] does: with
    the button enabled, a click sends nothing exactly when [room] is still
    [null], and then it changes nothing at all. *)
Theorem send_button_ignores_room (encode : string -> list byte)
    (s : state) (date_now new_date : Z) :
  Send_disabled s = false ->
  (effects (sendMessage encode date_now new_date) s = [] <-> room s = None) /\
  (room s = None -> exec (sendMessage encode date_now new_date) s = s).
Proof.
  unfold Send_disabled. intro H. apply orb_false_iff in H as [Hc Hn].
  apply negb_false_iff in Hc, Hn.
  handler_steps. rewrite Hn, Hc. cbn.
  destruct (room s); cbn; split; try split; congruence.
Qed.

Lemma send_button_ignores_room_witness :
  Send_disabled MoreSamples.half_connected = false /\
  exec (sendMessage Samples.sample_encode 1700000001000 1700000001000)
    MoreSamples.half_connected = MoreSamples.half_connected.
Proof.
  split; [reflexivity|].
  apply (send_button_ignores_room Samples.sample_encode
           MoreSamples.half_connected 1700000001000 1700000001000);
    reflexivity.
Defined.

(** X11.  When the token request fails (the fetch rejects, the status is
    not ok, or the body is not JSON) or [room.connect] throws, the
    connecting flag is dropped and the error is ["Connection failed: "]
    followed by the cause, which for a bad status is
    ["Token request failed: <status> <body>"].  No room is connected, and
    messages, participants and the room reference are untouched; a
    controller that was not connected is back on the login screen. *)
Theorem connection_failure_returns_to_login (s : state) (i : fetch_result)
    (cause : string) :
  fetch_failure i = Some cause ->
  let s' := exec (connectToRoom_fetched i) s in
  error s' = ("Connection failed: " ++ cause)%string /\
  isConnecting s' = false /\
  effects (connectToRoom_fetched i) s = [] /\
  messages s' = messages s /\
  participants s' = participants s /\
  room s' = room s /\
  (isConnected s = false -> render s' = Idle) /\
  exec (connectToRoom_rejected cause) s = s'.
Proof.
  intros Hf s'. subst s'.
  destruct i as [msg | [|] status text [msg | data]]; cbn in Hf;
    try discriminate; injection Hf as <-;
    unfold connectToRoom_fetched, connectToRoom_rejected; handler_steps;
    unfold render; cbn;
    (repeat split; try reflexivity; intro Hc; now rewrite Hc).
Qed.

Lemma connection_failure_returns_to_login_witness :
  let s' :=
    exec (connectToRoom_fetched
            (FetchResponse false 500 "{}" (inl "not read")))
      MoreSamples.joining in
  error s' = "Connection failed: Token request failed: 500 {}" /\
  render s' = Idle.
Proof.
  pose proof (connection_failure_returns_to_login MoreSamples.joining
                (FetchResponse false 500 "{}" (inl "not read"))
                "Token request failed: 500 {}" eq_refl)
    as (He & _ & _ & _ & _ & _ & Hr & _).
  split; [exact He | exact (Hr eq_refl)].
Defined.

Lemma cleanup_same (r : option nat) : cleanup r r = [].
Proof.
  destruct r as [n|]; [|reflexivity].
  unfold cleanup. now rewrite ChatRoomProofs.same_room_refl.
Qed.

Lemma count_occ_filter_other (l : list string) (x q : string) :
  q <> x ->
  count_occ string_dec (filter (fun y => negb (y =? x)%string) l) q =
  count_occ string_dec l q.
Proof.
  intro Hne. induction l as [|y rest IH]; [reflexivity|].
  cbn [filter]. destruct (y =? x)%string eqn:Hy; cbn [negb].
  - apply String.eqb_eq in Hy. subst y. cbn [count_occ].
    destruct (string_dec x q); [congruence | exact IH].
  - cbn [count_occ]. destruct (string_dec y q); now rewrite IH.
Qed.

Lemma filter_out_absent (l : list string) (x : string) :
  ~ In x l -> filter (fun y => negb (y =? x)%string) l = l.
Proof.
  induction l as [|y rest IH]; [reflexivity|].
  intro Hn. cbn [filter].
  destruct (y =? x)%string eqn:Hy.
  - apply String.eqb_eq in Hy. subst y. elim Hn. now left.
  - cbn [negb]. rewrite IH; [reflexivity|]. intro H. apply Hn. now right.
Qed.

(** Carol joins bob and the agent: still no identity twice. *)
Lemma participant_connected_NoDup_witness :
  NoDup (participants
           (exec (on_ParticipantConnected {| identity := "carol" |}
                    1700000005000 1700000005000) Samples.chatting)).
Proof.
  apply (ChatRoomProofs.participant_connected_NoDup Samples.chatting
           {| identity := "carol" |} 1700000005000 1700000005000).
  repeat constructor; cbn; intuition discriminate.
Defined.

(** X13.  The notice ["AI Assistant joined the chat"] does not depend on the
    participant list: a ParticipantConnected event for ["ai-agent"] that is
    already listed leaves the participants as they are and still appends
    the notice, so a repeated event repeats it. *)
Theorem agent_rejoin_repeats_notice (s : state) (p : participant)
    (date_now new_date : Z) :
  identity p = "ai-agent" ->
  In "ai-agent" (participants s) ->
  let s' := exec (on_ParticipantConnected p date_now new_date) s in
  participants s' = participants s /\
  messages s' =
    messages s ++
    [system_message date_now new_date "AI Assistant joined the chat"] /\
  transcript (messages s') =
    transcript (messages s) ++ [(System, "AI Assistant joined the chat")].
Proof.
  intros Hid Hin s'. subst s'.
  apply ChatRoomProofs.includes_In in Hin.
  handler_steps. rewrite Hid, Hin. cbn.
  repeat split. unfold transcript. now rewrite map_app.
Qed.

Lemma agent_rejoin_repeats_notice_witness :
  transcript
    (messages
       (exec (on_ParticipantConnected {| identity := "ai-agent" |}
                1700000005000 1700000005000) Samples.chatting)) =
  [ (System, "Connected to chat room!");
    (System, "AI Assistant joined the chat") ].
Proof.
  pose proof (agent_rejoin_repeats_notice Samples.chatting
                {| identity := "ai-agent" |} 1700000005000 1700000005000
                eq_refl (or_introl eq_refl)) as (_ & _ & H).
  exact H.
Defined.

(** X14.  A ParticipantDisconnected event removes every occurrence of the
    identity and nothing else: the identity is no longer listed, every
    other identity is listed as often as before, a list without duplicates
    stays so, and no message is added. *)
Theorem participant_disconnected_removes (s : state) (p : participant) :
  let s' := exec (on_ParticipantDisconnected p) s in
  ~ In (identity p) (participants s') /\
  (forall q, q <> identity p ->
     count_occ string_dec (participants s') q =
     count_occ string_dec (participants s) q) /\
  (NoDup (participants s) -> NoDup (participants s')) /\
  (List.length (participants s') <= List.length (participants s))%nat /\
  messages s' = messages s.
Proof.
  intro s'. subst s'. handler_steps. repeat split.
  - intro H. apply filter_In in H as [_ H].
    now rewrite String.eqb_refl in H.
  - intros q Hq. now apply count_occ_filter_other.
  - apply NoDup_filter.
  - apply filter_length_le.
Qed.

(** X15.  A participant who was not listed, joins and leaves again leaves
    the participant list exactly as it was before. *)
Theorem participant_join_leave_round_trip (s : state) (p : participant)
    (date_now new_date : Z) :
  ~ In (identity p) (participants s) ->
  participants
    (exec (on_ParticipantDisconnected p)
       (exec (on_ParticipantConnected p date_now new_date) s)) =
  participants s.
Proof.
  intro Hn.
  assert (Hi : includes (participants s) (identity p) = false).
  { destruct (includes (participants s) (identity p)) eqn:Hi;
      [|reflexivity].
    apply ChatRoomProofs.includes_In in Hi. contradiction. }
  assert (Hp : participants
                 (exec (on_ParticipantConnected p date_now new_date) s) =
               participants s ++ [identity p]).
  { handler_steps. rewrite Hi.
    now destruct (identity p =? "ai-agent")%string. }
  assert (Hd : forall t,
             participants (exec (on_ParticipantDisconnected p) t) =
             filter (fun q => negb (q =? identity p)%string)
               (participants t)).
  { intro t. handler_steps. reflexivity. }
  rewrite Hd, Hp, filter_app, filter_out_absent by assumption.
  cbn. rewrite String.eqb_refl. cbn. apply app_nil_r.
Qed.

Lemma participant_join_leave_round_trip_witness :
  participants
    (exec (on_ParticipantDisconnected {| identity := "carol" |})
       (exec (on_ParticipantConnected {| identity := "carol" |}
                1700000005000 1700000005000) Samples.chatting)) =
  ["ai-agent"; "bob"].
Proof.
  apply (participant_join_leave_round_trip Samples.chatting
           {| identity := "carol" |} 1700000005000 1700000005000).
  cbn. intuition discriminate.
Defined.

Section MoreWithCodec.

Variable encode : string -> list byte.
Variable decode : list byte -> option string.

Lemma step_state (s : state) (i : input) :
  fst (step encode decode s i) = exec (dispatch encode decode i) s.
Proof.
  unfold step, exec. now destruct (dispatch encode decode i s) as [[u s'] es].
Qed.

Lemma run_cons_state (s : state) (i : input) (rest : list input) :
  fst (run encode decode s (i :: rest)) =
  fst (run encode decode (fst (step encode decode s i)) rest).
Proof.
  cbn [run]. destruct (step encode decode s i) as [s1 e1]. cbn [fst].
  now destruct (run encode decode s1 rest) as [s2 e2].
Qed.

(** X16.  A DataReceived event whose payload decodes appends one message
    with the decoded text.  Its sender is the identity, or ["Unknown"] when
    there is no participant or the identity is empty; it is shown as the
    agent's exactly when the identity is ["ai-agent"] and as somebody
    else's otherwise, also when the identity is the user's own.  Nothing
    else changes and nothing is sent. *)
Theorem data_received_appends (s : state) (payload : list byte)
    (p : option participant) (date_now : Z) (random : Q) (new_date : Z)
    (text : string) :
  decode payload = Some text ->
  let h := on_DataReceived decode payload p date_now random new_date in
  exists m,
    messages (exec h s) = messages s ++ [m] /\
    message m = text /\
    (p = None -> sender m = "Unknown") /\
    (forall i, p = Some {| identity := i |} ->
       sender m = if (i =? EmptyString)%string then "Unknown" else i) /\
    (getMessageStyle m = Agent <-> p = Some {| identity := "ai-agent" |}) /\
    (getMessageStyle m = Agent \/ getMessageStyle m = Other) /\
    participants (exec h s) = participants s /\
    render (exec h s) = render s /\
    effects h s = [].
Proof.
  intros Hd h. subst h. unfold on_DataReceived. rewrite Hd.
  eexists. split; [handler_steps; reflexivity|].
  split; [reflexivity|]. cbn [sender].
  split; [now intros ->|].
  split. { intros i ->. unfold sender_of, nonempty. cbn.
           now destruct (i =? EmptyString)%string. }
  unfold getMessageStyle, is_agent, identity_of. cbn.
  destruct p as [[i]|]; cbn.
  - destruct (i =? "ai-agent")%string eqn:Hi.
    + apply String.eqb_eq in Hi. subst i. repeat split; auto.
    + apply String.eqb_neq in Hi.
      repeat split; auto; try discriminate. intro H. congruence.
  - repeat split; auto; discriminate.
Qed.

(** X17.  A DataReceived event whose payload cannot be decoded is dropped:
    the state is left exactly as it was and nothing is sent. *)
Theorem undecodable_data_dropped (s : state) (payload : list byte)
    (p : option participant) (date_now : Z) (random : Q) (new_date : Z) :
  decode payload = None ->
  step encode decode s
    (EvDataReceived payload p date_now random new_date) = (s, []).
Proof.
  intro Hd. unfold step, dispatch, on_DataReceived. rewrite Hd.
  cbn. now rewrite cleanup_same.
Qed.

Lemma sendMessage_refused (s : state) (date_now new_date : Z) :
  blank (inputMessage s) = true \/ room s = None \/ isConnected s = false ->
  step encode decode s (ClickSend date_now new_date) = (s, []).
Proof.
  intro H. unfold step, dispatch. handler_steps.
  rewrite JSMore.nonempty_trim.
  assert (Hg : negb (negb (blank (inputMessage s)))
               || negb (match room s with Some _ => true | None => false end)
               || negb (isConnected s) = true).
  { destruct H as [H | [H | H]]; rewrite H; cbn;
      rewrite ?orb_true_r; reflexivity. }
  rewrite Hg. cbn. now rewrite cleanup_same.
Qed.

(** X18.  [sendMessage] does nothing at all (no state change, nothing
    published, the draft kept) when the draft is blank, when [room] is
    [null], or when the controller is not connected. *)
Theorem send_guard_noop (s : state) (date_now new_date : Z) :
  blank (inputMessage s) = true \/ room s = None \/ isConnected s = false ->
  step encode decode s (ClickSend date_now new_date) = (s, []).
Proof.
  intro H. now apply sendMessage_refused.
Qed.

(** X19.  A send clears the draft, so a second click straight after it is
    dropped: two clicks on Send append and publish what one click does. *)
Theorem double_send_sends_once (s : state) (t1 n1 t2 n2 : Z) :
  run encode decode s [ClickSend t1 n1; ClickSend t2 n2] =
  run encode decode s [ClickSend t1 n1].
Proof.
  cbn [run].
  destruct (step encode decode s (ClickSend t1 n1)) as [s1 e1] eqn:H1.
  assert (Hs1 : blank (inputMessage s1) = true \/ room s1 = None \/
                isConnected s1 = false).
  { assert (E : s1 = fst (step encode decode s (ClickSend t1 n1)))
      by now rewrite H1.
    rewrite step_state in E. subst s1. clear H1.
    cbn [dispatch]. handler_steps.
    destruct (negb (nonempty (trim (inputMessage s)))) eqn:Hn; cbn.
    - left. apply negb_true_iff in Hn.
      rewrite JSMore.nonempty_trim in Hn. now apply negb_false_iff in Hn.
    - destruct (room s) eqn:Hr; cbn; [|now right; left].
      destruct (isConnected s) eqn:Hc; cbn; [now left | now right; right]. }
  rewrite (sendMessage_refused s1 t2 n2 Hs1). reflexivity.
Qed.

(** X20.  When the reading that the failure filter takes for the optimistic
    message equals the reading the message was stamped with (the publish
    failed within the millisecond of the send), the filter does drop the
    optimistic message: what is left is the earlier list, filtered message
    by message against the clock.  If the clock does not tick at all while
    the filter runs, every earlier message stamped with that millisecond
    is dropped with it. *)
Theorem failed_send_same_tick (s : state) (tick new_date : Z)
    (failed_at : nat -> Z) (error_message : string) :
  nonempty (trim (inputMessage s)) = true ->
  room s <> None ->
  isConnected s = true ->
  failed_at (List.length (messages s)) = tick ->
  let mine :=
    optimistic (username s) (trim (inputMessage s)) tick new_date in
  let s2 := exec (sendMessage_catch error_message failed_at)
              (exec (sendMessage encode tick new_date) s) in
  messages s2 = filter_by_clock failed_at 0 (messages s) /\
  (List.length (messages s2) <= List.length (messages s))%nat /\
  ((forall i, failed_at i = tick) ->
   messages s2 =
     filter (fun msg => negb (Qeq_bool (id msg) (inject_Z tick)))
       (messages s) /\
   ~ In mine (messages s2) /\
   (forall m, In m (messages s) ->
      Qeq_bool (id m) (inject_Z tick) = true -> ~ In m (messages s2))).
Proof.
  intros Hin Hroom Hconn Htick mine s2.
  assert (Hid : Qeq_bool (id mine) (inject_Z tick) = true).
  { subst mine. unfold optimistic. cbn [id].
    rewrite ChatRoomProofs.Qeq_bool_inject_Z. apply Z.eqb_refl. }
  assert (H2 : messages s2 = filter_by_clock failed_at 0 (messages s)).
  { pose (s1 := exec (sendMessage encode tick new_date) s).
    assert (H1 : messages s1 = messages s ++ [mine]).
    { subst s1 mine. handler_steps. rewrite Hin, Hconn.
      destruct (room s); [reflexivity | congruence]. }
    clearbody mine. subst s2. fold s1. clearbody s1. handler_steps.
    rewrite H1, ChatRoomProofs.filter_by_clock_app. cbn [Nat.add].
    rewrite Htick, Hid. cbn. apply app_nil_r. }
  split; [exact H2|].
  split; [rewrite H2; apply ChatRoomProofs.filter_by_clock_length|].
  intro Hstill.
  rewrite H2, (ChatRoomProofs.filter_by_clock_still _ tick _ _ Hstill).
  split; [reflexivity|]. split.
  - intro H. apply filter_In in H as [_ H]. now rewrite Hid in H.
  - intros m _ Hm H. apply filter_In in H as [_ H]. now rewrite Hm in H.
Qed.

(** A clock that ticks between two messages: the greeting stamped [T] is
    compared with [T] and dropped, the optimistic message stamped [T] is
    compared with [T + 1] and kept. *)
Lemma clock_ticking_mid_filter :
  messages
    (exec (sendMessage_catch "data channel closed"
             (fun i => 1700000000000 + Z.of_nat i))
       (exec (sendMessage encode 1700000000000 1700000000001)
          Samples.chatting)) =
  [ optimistic "bob" "hello" 1700000000000 1700000000001 ].
Proof. reflexivity. Qed.

End MoreWithCodec.

Lemma data_received_appends_witness :
  exists m,
    messages
      (exec (on_DataReceived Samples.sample_decode
               (list_byte_of_string "hello bob")
               (Some {| identity := "bob" |}) 1700000003000 (1 # 2)
               1700000003001) Samples.chatting) =
    messages Samples.chatting ++ [m] /\
    message m = "hello bob" /\
    getMessageStyle m = Other.
Proof.
  destruct (data_received_appends Samples.sample_decode Samples.chatting
              (list_byte_of_string "hello bob")
              (Some {| identity := "bob" |}) 1700000003000 (1 # 2)
              1700000003001 "hello bob" eq_refl)
    as (m & Hm & Ht & _ & _ & Hagent & [Ha | Ho] & _).
  - apply Hagent in Ha. discriminate Ha.
  - exists m. now repeat split.
Defined.

Lemma undecodable_data_dropped_witness :
  step Samples.sample_encode (fun _ => None) Samples.chatting
    (EvDataReceived (list_byte_of_string "hello") None 1700000003000
       (1 # 2) 1700000003001) = (Samples.chatting, []).
Proof.
  apply (undecodable_data_dropped Samples.sample_encode (fun _ => None)).
  reflexivity.
Defined.

Lemma send_guard_noop_witness :
  step Samples.sample_encode Samples.sample_decode
    MoreSamples.half_connected (ClickSend 1700000001000 1700000001000) =
  (MoreSamples.half_connected, []).
Proof.
  apply (send_guard_noop Samples.sample_encode Samples.sample_decode).
  right. left. reflexivity.
Defined.

Lemma failed_send_same_tick_witness :
  messages
    (exec (sendMessage_catch "data channel closed"
             (fun _ => 1700000000000))
       (exec (sendMessage Samples.sample_encode
                1700000000000 1700000000001) Samples.chatting)) = [].
Proof.
  pose proof (failed_send_same_tick Samples.sample_encode Samples.chatting
                1700000000000 1700000000001 (fun _ => 1700000000000)
                "data channel closed"
                eq_refl ltac:(discriminate) eq_refl eq_refl) as (H & _).
  rewrite H. reflexivity.
Defined.

Section Runs.

Variable encode : string -> list byte.
Variable decode : list byte -> option string.

(** What a handler can do to the message list: keep it, append one
    message, empty it, or filter it. *)
Lemma step_messages (s : state) (i : input) :
  let s' := fst (step encode decode s i) in
  messages s' = messages s \/
  (exists m, messages s' = messages s ++ [m] /\ single_role m = true) \/
  (i = ClickDisconnect /\ messages s' = []) \/
  (exists error_message t,
     i = PublishRejected error_message t /\
     messages s' = filter_by_clock t 0 (messages s)).
Proof.
  intro s'. subst s'. rewrite step_state.
  destruct i; cbn [dispatch].
  - now left.
  - now left.
  - left. handler_steps.
    now destruct (negb (nonempty (trim (username s)))).
  - left. destruct r as [msg | [|] status text [msg | data]]; reflexivity.
  - now left.
  - now left.
  - right. left. eexists. split; [handler_steps; reflexivity | reflexivity].
  - right. left. eexists. split; [handler_steps; reflexivity | reflexivity].
  - unfold on_DataReceived. destruct (decode payload); [|now left].
    right. left. eexists. split; [handler_steps; reflexivity|].
    unfold single_role. cbn. now destruct (is_agent p).
  - handler_steps. destruct (identity p =? "ai-agent")%string; [|now left].
    right. left. eexists. split; reflexivity.
  - now left.
  - handler_steps.
    destruct (negb (nonempty (trim (inputMessage s)))
              || negb (match room s with Some _ => true | None => false end)
              || negb (isConnected s)); [now left|].
    right. left. eexists. split; reflexivity.
  - now left.
  - right. right. right. exists error_message, date_now. now split.
  - right. right. left. split; [reflexivity|].
    handler_steps. destruct (room s); reflexivity.
Qed.

(** X21.  The message list is append-only outside two handlers: every
    input other than the disconnect action and a failed publish leaves the
    earlier messages in place and in order, and adds at most one. *)
Theorem messages_append_only (s : state) (i : input) :
  i <> ClickDisconnect ->
  (forall error_message t, i <> PublishRejected error_message t) ->
  exists added,
    messages (fst (step encode decode s i)) = messages s ++ added /\
    (List.length added <= 1)%nat.
Proof.
  intros Hd Hp.
  destruct (step_messages s i)
    as [H | [(m & H & _) | [(Hi & _) | (e & t & Hi & _)]]].
  - exists []. rewrite app_nil_r. split; [exact H | cbn; lia].
  - exists [m]. split; [exact H | cbn; lia].
  - contradiction.
  - now elim (Hp e t).
Qed.

Lemma single_role_run (inputs : list input) (s : state) :
  Forall (fun m => single_role m = true) (messages s) ->
  Forall (fun m => single_role m = true)
    (messages (fst (run encode decode s inputs))).
Proof.
  revert s. induction inputs as [|i rest IH]; intros s Hs; [exact Hs|].
  rewrite run_cons_state. apply IH.
  destruct (step_messages s i)
    as [H | [(m & H & Hm) | [(_ & H) | (e & t & _ & H)]]]; rewrite H.
  - exact Hs.
  - apply Forall_app. split; [exact Hs | now constructor].
  - constructor.
  - apply Forall_forall. intros m Hm.
    apply ChatRoomProofs.filter_by_clock_In in Hm.
    now apply (proj1 (Forall_forall _ _) Hs).
Qed.

(** X22.  Whatever happens to the controller from its initial state, each
    message in its list has at most one truthy role flag, so the bubble
    style of [Message.jsx], which looks at [isUser] first, and its avatar,
    which looks at [isBot] first, always agree on whose message it is. *)
Theorem message_style_matches_avatar (inputs : list input) (m : Message) :
  In m (messages (fst (run encode decode initial inputs))) ->
  single_role m = true /\
  (getMessageStyle m = User <-> Message_avatar m = UserIcon) /\
  (getMessageStyle m = Agent <-> Message_avatar m = BotIcon).
Proof.
  intro Hin.
  assert (Hs : single_role m = true).
  { pose proof (single_role_run inputs initial (Forall_nil _)) as H.
    now apply (proj1 (Forall_forall _ _) H). }
  split; [exact Hs|]. revert Hs.
  unfold single_role, getMessageStyle, Message_avatar.
  destruct (flag (isUser m)), (flag (isBot m)), (flag (isSystem m));
    intro Hs; try discriminate; split; split; intro H;
    reflexivity || discriminate.
Qed.

(** X23.  The disconnect action with a room at hand disconnects it twice:
    once in [disconnect] itself and once more in the cleanup of the effect
    that watches [room], which runs because [room] becomes [null].
    Without a room nothing is disconnected. *)
Theorem disconnect_disconnects_twice (s : state) :
  let '(s', calls) := step encode decode s ClickDisconnect in
  room s' = None /\
  calls = match room s with
          | Some _ => [RoomDisconnect; RoomDisconnect]
          | None => []
          end.
Proof.
  unfold step, dispatch. handler_steps.
  destruct (room s) eqn:Hr; cbn; rewrite ?Hr; now split.
Qed.

(** X24.  Nothing ties a pending [room.connect] to the session that
    started it.  If, with no room stored yet, the Connected event is
    followed by the disconnect action before [room.connect] resolves, the
    disconnect finds [room] still [null] and disconnects nothing, and the
    late resolution then stores the room: the controller shows the login
    screen with empty lists while it holds a room that was never
    disconnected. *)
Theorem connect_resolving_after_disconnect (s : state) (v : room_view)
    (new_room : nat) (date_now new_date : Z) :
  room s = None ->
  let '(final, calls) :=
    run encode decode s
      [ EvConnected v date_now new_date; ClickDisconnect;
        ConnectResolved new_room ] in
  render final = Idle /\
  room final = Some new_room /\
  messages final = [] /\
  participants final = [] /\
  calls = [].
Proof.
  intro Hr. cbn [run]. unfold step, dispatch. handler_steps.
  rewrite Hr. cbn. now repeat split.
Qed.

(** X25.  A join that goes through (username with a visible character,
    token response ok, Connected event, [room.connect] resolved) ends on the
    chat screen with the room stored and the error cleared.  The messages
    that were in the list before the join are still there, followed by
    ["Connected to chat room!"].  The calls made are the token request, the
    room connection with the URL and token of the response and, if another
    room was still stored, its disconnection. *)
Theorem successful_join (s : state) (status : nat) (text : string)
    (data : object) (v : room_view) (new_room : nat)
    (date_now new_date : Z) :
  blank (username s) = false ->
  let '(final, calls) :=
    run encode decode s
      [ ClickJoin;
        FetchSettled (FetchResponse true status text (inr data));
        EvConnected v date_now new_date;
        ConnectResolved new_room ] in
  render final = Connected /\
  room final = Some new_room /\
  error final = EmptyString /\
  messages final =
    messages s ++
    [system_message date_now new_date "Connected to chat room!"] /\
  calls =
    [ Fetch "/api/get-token" "POST"
        [ ("username", VStr (trim (username s))) ];
      RoomConnect (obj_get "wsUrl" data) (obj_get "token" data) true ] ++
    cleanup (room s) (Some new_room).
Proof.
  intro Hb.
  assert (Hn : nonempty (trim (username s)) = true).
  { rewrite JSMore.nonempty_trim, Hb. reflexivity. }
  cbn [run]. unfold step, dispatch, connectToRoom_fetched,
    connectToRoom_connected. handler_steps.
  rewrite Hn. cbn. rewrite cleanup_same. cbn. rewrite app_nil_r.
  now repeat split.
Qed.

End Runs.

Lemma messages_append_only_witness :
  exists added,
    messages
      (fst (step Samples.sample_encode Samples.sample_decode
              Samples.chatting (EvDisconnected 1700000009000 1700000009001)))
    = messages Samples.chatting ++ added /\
    (List.length added <= 1)%nat.
Proof.
  apply (messages_append_only Samples.sample_encode Samples.sample_decode
           Samples.chatting (EvDisconnected 1700000009000 1700000009001));
    discriminate.
Defined.

Lemma sample_session_messages :
  messages
    (fst (run Samples.sample_encode Samples.sample_decode initial
            [ TypeUsername "bob";
              EvConnected Samples.echoing_room 1700000000000 1700000000001;
              ConnectResolved 1%nat;
              TypeMessage "hi";
              ClickSend 1700000002000 1700000002001 ])) =
  [ system_message 1700000000000 1700000000001 "Connected to chat room!";
    optimistic "bob" "hi" 1700000002000 1700000002001 ].
Proof. vm_compute. reflexivity. Qed.

Lemma message_style_matches_avatar_witness :
  single_role (optimistic "bob" "hi" 1700000002000 1700000002001) = true /\
  (getMessageStyle (optimistic "bob" "hi" 1700000002000 1700000002001)
     = User <->
   Message_avatar (optimistic "bob" "hi" 1700000002000 1700000002001)
     = UserIcon) /\
  (getMessageStyle (optimistic "bob" "hi" 1700000002000 1700000002001)
     = Agent <->
   Message_avatar (optimistic "bob" "hi" 1700000002000 1700000002001)
     = BotIcon).
Proof.
  apply (message_style_matches_avatar Samples.sample_encode
           Samples.sample_decode
           [ TypeUsername "bob";
             EvConnected Samples.echoing_room 1700000000000 1700000000001;
             ConnectResolved 1%nat;
             TypeMessage "hi";
             ClickSend 1700000002000 1700000002001 ]).
  rewrite sample_session_messages. apply in_cons, in_eq.
Defined.

Lemma connect_resolving_after_disconnect_witness :
  room
    (fst (run Samples.sample_encode Samples.sample_decode
            MoreSamples.joining
            [ EvConnected Samples.echoing_room 1700000000000 1700000000001;
              ClickDisconnect; ConnectResolved 1%nat ])) = Some 1%nat /\
  snd (run Samples.sample_encode Samples.sample_decode
         MoreSamples.joining
         [ EvConnected Samples.echoing_room 1700000000000 1700000000001;
           ClickDisconnect; ConnectResolved 1%nat ]) = [].
Proof.
  pose proof (connect_resolving_after_disconnect Samples.sample_encode
                Samples.sample_decode MoreSamples.joining
                Samples.echoing_room 1%nat 1700000000000 1700000000001
                eq_refl) as H.
  destruct (run _ _ _ _) as [final calls].
  destruct H as (_ & Hr & _ & _ & Hc). now split.
Defined.

Lemma successful_join_witness :
  transcript
    (messages
       (fst (run Samples.sample_encode Samples.sample_decode
               Samples.chatting
               [ ClickJoin;
                 FetchSettled (FetchResponse true 200 EmptyString (inr []));
                 EvConnected Samples.echoing_room
                   1700000010000 1700000010001;
                 ConnectResolved 2%nat ]))) =
  [ (System, "Connected to chat room!");
    (System, "Connected to chat room!") ] /\
  List.length
    (snd (run Samples.sample_encode Samples.sample_decode
            Samples.chatting
            [ ClickJoin;
              FetchSettled (FetchResponse true 200 EmptyString (inr []));
              EvConnected Samples.echoing_room
                1700000010000 1700000010001;
              ConnectResolved 2%nat ])) = 3%nat.
Proof.
  pose proof (successful_join Samples.sample_encode Samples.sample_decode
                Samples.chatting 200%nat EmptyString []
                Samples.echoing_room 2%nat 1700000010000 1700000010001
                eq_refl) as H.
  destruct (run _ _ _ _) as [final calls].
  destruct H as (_ & _ & _ & Hm & Hc). cbn [fst snd].
  rewrite Hm, Hc. now split.
Defined.

End ChatRoomMore.

(** ** The join request, once more *)

Module JoinRequestMore.
Import JS.

(** X26.  A request that [connectToRoom] sends is never turned away by the
    token issuer for its method or its username: it goes to
    [/api/get-token] as a POST with a truthy username, so the answer is
    neither 405 nor 400, and with a valid configuration the trimmed
    username is what gets signed as [sub]. *)
Theorem join_request_accepted
    (jwt_sign : value -> value -> string + string) (date_now : Z)
    (e : TokenIssuer.env) (s : ChatRoom.state) (url method : string)
    (body : object) :
  In (ChatRoom.Fetch url method body)
     (ChatRoom.effects ChatRoom.connectToRoom s) ->
  let o := TokenIssuer.handler jwt_sign date_now e
             {| TokenIssuer.method := method; TokenIssuer.body := body |} in
  url = "/api/get-token" /\
  TokenIssuer.status (TokenIssuer.sent o) <> 405 /\
  TokenIssuer.status (TokenIssuer.sent o) <> 400 /\
  (TokenIssuer.valid_config e ->
   exists claims,
     TokenIssuer.signing o =
       [ (claims, TokenIssuer.env_read (TokenIssuer.LIVEKIT_API_SECRET e)) ]
     /\ prop "sub" claims = VStr (trim (ChatRoom.username s))).
Proof.
  intros Hin o. subst o.
  rewrite JoinRequest.connectToRoom_fetch in Hin.
  destruct (nonempty (trim (ChatRoom.username s))) eqn:Hn;
    [|now destruct Hin].
  destruct Hin as [Heq | []]. injection Heq as <- <- <-.
  split; [reflexivity|].
  assert (Ht : truthy (obj_get "username"
                         [ ("username", VStr (trim (ChatRoom.username s))) ])
               = true) by exact Hn.
  unfold TokenIssuer.handler.
  cbn [TokenIssuer.method TokenIssuer.body].
  replace ("POST" =? "POST")%string with true by reflexivity.
  rewrite Ht. cbn [negb].
  destruct (negb _ || negb _ || negb _) eqn:Hc.
  - repeat split; try discriminate.
    intro Hv. apply TokenIssuerMore.valid_config_iff in Hv.
    cbn [TokenIssuer.env_read] in *. congruence.
  - destruct (jwt_sign _ _); repeat split; try discriminate;
      intros _; eexists; split; reflexivity.
Qed.

Lemma join_request_accepted_witness :
  TokenIssuer.status
    (TokenIssuer.sent
       (TokenIssuer.handler Samples.sample_sign 1700000000123
          Samples.sample_env
          {| TokenIssuer.method := "POST";
             TokenIssuer.body := [ ("username", VStr "bob") ] |})) <> 400.
Proof.
  pose proof (join_request_accepted Samples.sample_sign 1700000000123
                Samples.sample_env MoreSamples.joining "/api/get-token"
                "POST" [ ("username", VStr "bob") ]
                (or_introl eq_refl)) as (_ & _ & H & _).
  exact H.
Defined.

End JoinRequestMore.

(** ** The token issuer on a body of any shape *)

Module TokenIssuerAnyBody.
Import JS TokenIssuer.

Lemma destructure_None (v : value) :
  destructure v = None <-> v = VNull \/ v = VUndefined.
Proof.
  destruct v; cbn; split; intro H; try discriminate; auto;
    destruct H; discriminate.
Qed.

Lemma destructure_username (v : value) (o : object) :
  destructure v = Some o -> obj_get "username" o = prop "username" v.
Proof.
  destruct v; cbn; intro H; try discriminate; now injection H as <-.
Qed.

Lemma handler_any_body_POST (jwt_sign : value -> value -> string + string)
    (date_now : Z) (e : env) (req : raw_request) :
  raw_method req = "POST" ->
  handler_any_body jwt_sign date_now e req =
  match destructure (raw_body req) with
  | None => Threw "TypeError"
  | Some o => Returned (handler jwt_sign date_now e
                          {| method := "POST"; body := o |})
  end.
Proof.
  intro Hm. unfold handler_any_body. rewrite Hm. reflexivity.
Qed.

(** C6.  The claim fails on a POST without a body.  For every POST whose
    username is missing or empty: if the body is [null] or [undefined],
    reading [username] off it throws a [TypeError] out of the handler, so
    no 400 is sent; for every other body the handler answers 400 with
    ["Username is required"], calls [jwt.sign] never and hands out no
    token. *)
Theorem missing_username_any_body
    (jwt_sign : value -> value -> string + string)
    (date_now : Z) (e : env) (req : raw_request) :
  raw_method req = "POST" ->
  prop "username" (raw_body req) = VUndefined \/
  prop "username" (raw_body req) = VStr EmptyString ->
  (raw_body req = VNull \/ raw_body req = VUndefined ->
   handler_any_body jwt_sign date_now e req = Threw "TypeError") /\
  (raw_body req <> VNull -> raw_body req <> VUndefined ->
   exists o,
     handler_any_body jwt_sign date_now e req = Returned o /\
     status (sent o) = 400 /\
     json (sent o) = VObj [ ("error", VStr "Username is required") ] /\
     signing o = [] /\
     issued_token o = None).
Proof.
  intros Hm Hu. rewrite handler_any_body_POST by assumption. split.
  - intro Hb. apply destructure_None in Hb. now rewrite Hb.
  - intros Hn1 Hn2.
    destruct (destructure (raw_body req)) as [o|] eqn:Hd.
    + eexists. split; [reflexivity|].
      apply TokenIssuerProofs.missing_username_rejected; [reflexivity|].
      cbn [body]. now rewrite (destructure_username _ _ Hd).
    + apply destructure_None in Hd. tauto.
Qed.

Lemma missing_username_any_body_witness :
  handler_any_body Samples.sample_sign 1700000000123 Samples.sample_env
    (MoreSamples.post_any VNull) = Threw "TypeError".
Proof.
  apply (missing_username_any_body Samples.sample_sign 1700000000123
           Samples.sample_env (MoreSamples.post_any VNull)).
  - reflexivity.
  - left. reflexivity.
  - left. reflexivity.
Defined.

(** X1.  The handler throws exactly on a POST whose body is [null] or
    [undefined], and returns on every other request.  When it returns,
    [jwt.sign] has been called exactly if the request is a POST with a
    truthy username and all three configuration values are present, at
    most once and with the configured secret, and the status sent is one
    of 200, 400, 405 and 500. *)
Theorem signing_condition_any_body
    (jwt_sign : value -> value -> string + string)
    (date_now : Z) (e : env) (req : raw_request) :
  let r := handler_any_body jwt_sign date_now e req in
  (r = Threw "TypeError" <->
   raw_method req = "POST" /\
   (raw_body req = VNull \/ raw_body req = VUndefined)) /\
  (r = Threw "TypeError" \/ exists o, r = Returned o) /\
  (forall o, r = Returned o ->
     (signing o <> [] <->
      raw_method req = "POST" /\
      truthy (prop "username" (raw_body req)) = true /\
      valid_config e) /\
     (signing o = [] \/
      exists claims,
        signing o = [ (claims, env_read (LIVEKIT_API_SECRET e)) ]) /\
     In (status (sent o)) [200; 400; 405; 500]).
Proof.
  intro r. subst r. unfold handler_any_body.
  destruct (raw_method req =? "POST")%string eqn:Hm; cbn [negb].
  - apply String.eqb_eq in Hm.
    destruct (destructure (raw_body req)) as [o|] eqn:Hd.
    + split; [|split].
      * split; [discriminate|]. intros [_ Hb].
        apply destructure_None in Hb. congruence.
      * right. eexists. reflexivity.
      * intros o' Ho. injection Ho as <-.
        pose proof (TokenIssuerMore.signing_condition jwt_sign date_now e
                      {| method := raw_method req; body := o |}) as H.
        cbv zeta in H. cbn [method body] in H.
        now rewrite (destructure_username _ _ Hd) in H.
    + apply destructure_None in Hd. split; [|split].
      * now split.
      * now left.
      * discriminate.
  - apply String.eqb_neq in Hm. split; [|split].
    + split; [discriminate | intros [H _]; contradiction].
    + right. eexists. reflexivity.
    + intros o Ho. injection Ho as <-. cbn. split; [|split].
      * split; [intro H; now elim H | intros [H _]; contradiction].
      * now left.
      * tauto.
Qed.



End TokenIssuerAnyBody.
